(** * my-mcp-server: the tools of [server.py], shallowly embedded

    The development follows [src/server.py]: the Python built-ins the tools
    call ([str.splitlines], [str.join], [str.count], [str.replace],
    [str.lower], [list.insert], slicing, [sorted]) are modelled first, then
    the file system and the exceptions the handlers catch, then the five
    file and shell tools and [fetch_page], and last the properties.

    A Python [str] is a Rocq [string] with one character per code point, for
    code points below 256.  Python integers are [Z]; lengths are [nat] and
    are injected into [Z] where the source compares them with a line
    number. *)

From Stdlib Require Import ZArith Lia Ascii String.
From stdpp Require Import base tactics option list gmap strings pretty sorting.

(** ** Python strings *)

Module Py.

Definition LF : ascii := "010"%char.
Definition CR : ascii := "013"%char.
Definition NL : string := String LF "".

(** The line boundaries of [str.splitlines] among the code points below
    256: \n, \v, \f, \r, \x1c, \x1d, \x1e and \x85. *)
Definition is_linebreak (c : ascii) : bool :=
  let n := nat_of_ascii c in
  (((10 <=? n) && (n <=? 13)) || ((28 <=? n) && (n <=? 30)) || (n =? 133))%nat.

Definition is_cr (c : ascii) : bool := Ascii.eqb c CR.
Definition is_lf (c : ascii) : bool := Ascii.eqb c LF.

(** [s.splitlines()]: the line breaks are dropped, "\r\n" is one break, and
    the text after the last break is a line only when it is not empty. *)
Fixpoint splitlines (s : string) : list string :=
  match s with
  | "" => []
  | String c s' =>
      if is_linebreak c then
        "" :: (if is_cr c then
                 match s' with
                 | String d s'' => if is_lf d then splitlines s'' else splitlines s'
                 | "" => splitlines s'
                 end
               else splitlines s')
      else
        match splitlines s' with
        | [] => [String c ""]
        | l :: ls => String c l :: ls
        end
  end.

(** [sep.join(l)] on a list of strings. *)
Fixpoint join (sep : string) (l : list string) : string :=
  match l with
  | [] => ""
  | x :: l' =>
      match l' with
      | [] => x
      | _ :: _ => x +:+ sep +:+ join sep l'
      end
  end.

(** Reading in text mode with the default [newline=None]: "\r\n" and a
    lone "\r" both arrive as "\n". *)
Fixpoint universal_newlines (s : string) : string :=
  match s with
  | "" => ""
  | String c s' =>
      if is_cr c then
        String LF (match s' with
                   | String d s'' =>
                       if is_lf d then universal_newlines s'' else universal_newlines s'
                   | "" => universal_newlines s'
                   end)
      else String c (universal_newlines s')
  end.

(** Iterating over a text file: the lines end at "\n", which they keep. *)
Fixpoint iter_lines (s : string) : list string :=
  match s with
  | "" => []
  | String c s' =>
      if is_lf c then NL :: iter_lines s'
      else
        match iter_lines s' with
        | [] => [String c ""]
        | l :: ls => String c l :: ls
        end
  end.

(** [s.rstrip('\n')]. *)
Fixpoint rstrip_nl (s : string) : string :=
  match s with
  | "" => ""
  | String c s' =>
      match rstrip_nl s' with
      | "" => if is_lf c then "" else String c ""
      | r => String c r
      end
  end.

(** [s.lower()] on code points below 256: A-Z, and the capital letters
    U+00C0..U+00DE except the multiplication sign U+00D7. *)
Definition lower_char (c : ascii) : ascii :=
  let n := nat_of_ascii c in
  if (((65 <=? n) && (n <=? 90))
      || ((192 <=? n) && (n <=? 222) && negb (n =? 215)))%nat
  then ascii_of_nat (n + 32) else c.

Fixpoint lower (s : string) : string :=
  match s with
  | "" => ""
  | String c s' => String (lower_char c) (lower s')
  end.

(** [s.count(old)]: occurrences are found from the left and do not
    overlap; [skip] is the number of characters of the last occurrence
    still to be passed.  The empty string occurs [len(s) + 1] times. *)
Fixpoint count_from (old : string) (skip : nat) (s : string) : nat :=
  match s with
  | "" => 0
  | String _ s' =>
      match skip with
      | S k => count_from old k s'
      | O =>
          if String.prefix old s
          then S (count_from old (String.length old - 1) s')
          else count_from old 0 s'
      end
  end.

Definition count (s old : string) : nat :=
  match old with
  | "" => S (String.length s)
  | _ => count_from old 0 s
  end.

(** [s.replace(old, new)], with the same scan; an empty [old] puts [new]
    before every character and at the end. *)
Fixpoint replace_from (old new : string) (skip : nat) (s : string) : string :=
  match s with
  | "" => ""
  | String c s' =>
      match skip with
      | S k => replace_from old new k s'
      | O =>
          if String.prefix old s
          then new +:+ replace_from old new (String.length old - 1) s'
          else String c (replace_from old new 0 s')
      end
  end.

Fixpoint replace_empty (new : string) (s : string) : string :=
  match s with
  | "" => new
  | String c s' => new +:+ String c (replace_empty new s')
  end.

Definition replace (s old new : string) : string :=
  match old with
  | "" => replace_empty new s
  | _ => replace_from old new 0 s
  end.

(** [str(n)] for an integer. *)
Definition str_of_int (n : Z) : string := pretty n.

(** [len(l)] as a Python integer. *)
Definition len {A} (l : list A) : Z := Z.of_nat (length l).

(** [l.insert(i, x)]: a negative index counts from the end, and an index
    out of range is clamped to the nearer end. *)
Definition insert {A} (i : Z) (x : A) (l : list A) : list A :=
  let j := if (i <? 0)%Z then Z.max 0 (len l + i) else Z.min i (len l) in
  take (Z.to_nat j) l ++ x :: drop (Z.to_nat j) l.

(** The bounds of a slice [l[i:j]], normalised as Python does. *)
Definition slice_bound {A} (l : list A) (i : Z) : nat :=
  Z.to_nat (if (i <? 0)%Z then Z.max 0 (len l + i) else Z.min i (len l)).

(** [l[i:j]]. *)
Definition slice {A} (l : list A) (i j : Z) : list A :=
  let a := slice_bound l i in
  let b := slice_bound l j in
  take (b - a) (drop a l).

(** [l[i:j] = []]. *)
Definition del_slice {A} (l : list A) (i j : Z) : list A :=
  let a := slice_bound l i in
  let b := slice_bound l j in
  take a l ++ drop (Nat.max a b) l.

(** [sorted(l, key=key)]: ascending in the key and stable.  An element is
    put in front of the first element of the sorted rest whose key is not
    smaller, so elements of equal key keep the order they came in. *)
Fixpoint sorted_insert {A} (key : A -> Z) (x : A) (l : list A) : list A :=
  match l with
  | [] => [x]
  | y :: l' =>
      if (key x <=? key y)%Z then x :: l else y :: sorted_insert key x l'
  end.

Fixpoint sorted {A} (key : A -> Z) (l : list A) : list A :=
  match l with
  | [] => []
  | x :: l' => sorted_insert key x (sorted key l')
  end.

End Py.

(** ** Exceptions, outcomes and the file system *)

Inductive exn_class :=
  | OSError | TypeError | ValueError | ReError | TimeoutExpired | RuntimeError.

(** An exception: its class and [str(e)]. *)
Record exn := Exn { exn_class_of : exn_class; exn_str : string }.

Inductive outcome (A : Type) :=
  | Returned (a : A)
  | Raised (e : exn).
Arguments Returned {A} a.
Arguments Raised {A} e.

(** The file system is flat: a path is absent, a regular file with its text,
    or a directory.  The parent of every path is taken to exist, so
    [mkdir(parents=True, exist_ok=True)] changes nothing. *)
Inductive node :=
  | File (text : string)
  | Dir.

Abbreviation fs := (gmap string node).

(** Computations that read and write the file system and may raise. *)
Definition io (A : Type) : Type := fs -> outcome A * fs.

Definition ret {A} (a : A) : io A := fun σ => (Returned a, σ).
Definition raise {A} (e : exn) : io A := fun σ => (Raised e, σ).
Definition bind {A B} (m : io A) (k : A -> io B) : io B :=
  fun σ => match m σ with
           | (Returned a, σ') => k a σ'
           | (Raised e, σ') => (Raised e, σ')
           end.

(** [try: body except Exception as e: handler e]. *)
Definition try_except {A} (body : io A) (handler : exn -> io A) : io A :=
  fun σ => match body σ with
           | (Returned a, σ') => (Returned a, σ')
           | (Raised e, σ') => handler e σ'
           end.

(** [try: body finally: cleanup], for a cleanup that returns normally. *)
Definition try_finally {A} (body : io A) (cleanup : io unit) : io A :=
  fun σ => match body σ with
           | (r, σ') =>
               match cleanup σ' with
               | (Returned _, σ'') => (r, σ'')
               | (Raised e, σ'') => (Raised e, σ'')
               end
           end.

Notation "'let*' x ':=' m 'in' k" := (bind m (fun x => k))
  (at level 10, x name, m at level 100, k at level 200, only parsing).

Definition is_a_directory (p : string) : exn :=
  Exn OSError ("[Errno 21] Is a directory: '" +:+ p +:+ "'").
Definition no_such_file (p : string) : exn :=
  Exn OSError ("[Errno 2] No such file or directory: '" +:+ p +:+ "'").

(** [file_path.exists()]. *)
Definition path_exists (p : string) : io bool :=
  fun σ => (Returned (bool_decide (is_Some (σ !! p))), σ).

(** [file_path.read_text()]. *)
Definition read_text (p : string) : io string :=
  fun σ => match σ !! p with
           | Some (File text) => (Returned (Py.universal_newlines text), σ)
           | Some Dir => (Raised (is_a_directory p), σ)
           | None => (Raised (no_such_file p), σ)
           end.

(** The modes [write_file] documents: 'w' (overwrite) and 'a' (append). *)
Inductive write_mode := ModeW | ModeA.

(** [with open(p, mode) as f: f.write(content)]. *)
Definition open_write (p : string) (mode : write_mode) (content : string) : io unit :=
  fun σ => match σ !! p with
           | Some Dir => (Raised (is_a_directory p), σ)
           | Some (File old) =>
               (Returned tt,
                <[p := File (match mode with
                             | ModeW => content
                             | ModeA => old +:+ content
                             end)]> σ)
           | None => (Returned tt, <[p := File content]> σ)
           end.

(** [Path(p).unlink()]. *)
Definition unlink (p : string) : io unit :=
  fun σ => match σ !! p with
           | Some (File _) => (Returned tt, delete p σ)
           | Some Dir => (Raised (is_a_directory p), σ)
           | None => (Raised (no_such_file p), σ)
           end.

(** [enumerate(l, start)]. *)
Fixpoint enumerate {A} (start : Z) (l : list A) : list (Z * A) :=
  match l with
  | [] => []
  | x :: l' => (start, x) :: enumerate (start + 1)%Z l'
  end.

Local Open Scope Z_scope.

(** ** execute_shell_command *)

(** What [subprocess.run] returns. *)
Record completed_process := Completed {
  returncode : Z;
  proc_stdout : string;
  proc_stderr : string
}.

Module Shell.
Record result := Result {
  stdout : string;
  stderr : string;
  exit_code : Z;
  command : string;
  success : bool
}.
End Shell.

Section ShellTool.

(** [subprocess.run(command, stdout=PIPE, stderr=PIPE, timeout=.., cwd=..,
    text=True)]: the process launcher of the host. *)
Variable subprocess_run :
  list string -> option Z -> option string -> io completed_process.

Definition execute_shell_command
    (command : list string) (timeout : Z) (working_dir : option string)
  : io Shell.result :=
  try_except
    (let* result := subprocess_run command (Some timeout) working_dir in
     ret {| Shell.stdout := proc_stdout result;
            Shell.stderr := proc_stderr result;
            Shell.exit_code := returncode result;
            Shell.command := Py.join " " command;
            Shell.success := returncode result =? 0 |})
    (fun e =>
       match exn_class_of e with
       | TimeoutExpired =>
           ret {| Shell.stdout := "";
                  Shell.stderr := "Command timed out after "
                                  +:+ Py.str_of_int timeout +:+ " seconds";
                  Shell.exit_code := -1;
                  Shell.command := Py.join " " command;
                  Shell.success := false |}
       | _ =>
           ret {| Shell.stdout := "";
                  Shell.stderr := "Error executing command: " +:+ exn_str e;
                  Shell.exit_code := -1;
                  Shell.command := Py.join " " command;
                  Shell.success := false |}
       end).

End ShellTool.

(** ** show_file *)

Module Show.
Record result := Result {
  success : bool;
  error : option string;
  content : string;
  lines_shown : Z;
  total_lines : Z;
  start_line : option Z;
  end_line : option Z
}.
End Show.

Definition show_file
    (file_path : string) (start_line : Z) (num_lines : option Z)
  : io Show.result :=
  let* found := path_exists file_path in
  if negb found then
    ret {| Show.success := false;
           Show.error := Some ("File " +:+ file_path +:+ " does not exist");
           Show.content := ""; Show.lines_shown := 0; Show.total_lines := 0;
           Show.start_line := None; Show.end_line := None |}
  else
    try_except
      (let start_line := Z.max 1 start_line in
       let* text := read_text file_path in
       let all_lines := Py.splitlines text in
       let total_lines := Py.len all_lines in
       if total_lines <? start_line then
         ret {| Show.success := false;
                Show.error :=
                  Some ("Start line " +:+ Py.str_of_int start_line
                        +:+ " is beyond the file length ("
                        +:+ Py.str_of_int total_lines +:+ " lines)");
                Show.content := ""; Show.lines_shown := 0;
                Show.total_lines := total_lines;
                Show.start_line := None; Show.end_line := None |}
       else
         let start_idx := start_line - 1 in
         let end_idx :=
           match num_lines with
           | None => total_lines
           | Some n => Z.min (start_idx + n) total_lines
           end in
         let selected_lines := Py.slice all_lines start_idx end_idx in
         let content := Py.join Py.NL selected_lines in
         ret {| Show.success := true;
                Show.error := None;
                Show.content := content;
                Show.lines_shown := Py.len selected_lines;
                Show.total_lines := total_lines;
                Show.start_line := Some start_line;
                Show.end_line := Some (start_idx + Py.len selected_lines) |})
      (fun e =>
         ret {| Show.success := false;
                Show.error := Some ("Error reading file: " +:+ exn_str e);
                Show.content := ""; Show.lines_shown := 0; Show.total_lines := 0;
                Show.start_line := None; Show.end_line := None |}).

(** ** search_in_file *)

Module Search.
Record hit := Hit { line_number : Z; content : string }.
Record result := Result {
  success : bool;
  error : option string;
  matches : list hit;
  match_count : Z;
  truncated : option bool
}.
End Search.

(** The body of the [for i, line in enumerate(f, 1)] loop, with its
    [break]. *)
Fixpoint search_loop
    (search : string -> bool) (max_matches : Z)
    (numbered : list (Z * string)) (matches : list Search.hit)
  : list Search.hit :=
  match numbered with
  | [] => matches
  | (i, line) :: rest =>
      if search line then
        let matches :=
          matches ++ [ {| Search.line_number := i;
                          Search.content := Py.rstrip_nl line |} ] in
        if (0 <? max_matches) && (max_matches <=? Py.len matches)
        then matches
        else search_loop search max_matches rest matches
      else search_loop search max_matches rest matches
  end.

Section SearchTool.

(** [re.compile(pattern, flags)]: the second argument says whether
    [re.IGNORECASE] is set; the result is the compiled pattern's [search],
    or [re.error] is raised. *)
Variable re_compile : string -> bool -> outcome (string -> bool).

Definition search_in_file
    (file_path : string) (pattern : string)
    (case_sensitive : bool) (max_matches : Z)
  : io Search.result :=
  let* found := path_exists file_path in
  if negb found then
    ret {| Search.success := false;
           Search.error := Some ("File " +:+ file_path +:+ " does not exist");
           Search.matches := []; Search.match_count := 0;
           Search.truncated := None |}
  else
    try_except
      (let* regex := (fun σ => (re_compile pattern (negb case_sensitive), σ)) in
       let* text := read_text file_path in
       let matches :=
         search_loop regex max_matches (enumerate 1 (Py.iter_lines text)) [] in
       ret {| Search.success := true;
              Search.error := None;
              Search.matches := matches;
              Search.match_count := Py.len matches;
              Search.truncated :=
                Some ((0 <? max_matches) && (max_matches <=? Py.len matches)) |})
      (fun e =>
         match exn_class_of e with
         | ReError =>
             ret {| Search.success := false;
                    Search.error :=
                      Some ("Invalid regular expression: " +:+ exn_str e);
                    Search.matches := []; Search.match_count := 0;
                    Search.truncated := None |}
         | _ =>
             ret {| Search.success := false;
                    Search.error := Some ("Error searching file: " +:+ exn_str e);
                    Search.matches := []; Search.match_count := 0;
                    Search.truncated := None |}
         end).

End SearchTool.

(** ** edit_file: the line operations *)

(** The value under the "content" key of an operation, and an element of
    the working line array: a string, or a list of strings. *)
Inductive item :=
  | Str (s : string)
  | Lst (l : list string).

#[global] Instance item_inhabited : Inhabited item := populate (Str "").

(** One element of [line_operations]: a dictionary, of which the handler
    reads five keys.  [None] is an absent key. *)
Module Op.
Record t := Make {
  operation : option string;
  line : option Z;
  content : option item;
  start_line : option Z;
  end_line : option Z
}.

(** The operations of the tool's description. *)
Definition Insert (l : Z) (c : item) : t :=
  Make (Some "insert") (Some l) (Some c) None None.
Definition Replace (l : Z) (c : item) : t :=
  Make (Some "replace") (Some l) (Some c) None None.
Definition Delete (s e : Z) : t :=
  Make (Some "delete") None None (Some s) (Some e).
Definition DeleteLine (s : Z) : t :=
  Make (Some "delete") None None (Some s) None.
End Op.

(** The records appended to [line_ops_performed], one shape per branch. *)
Inductive performed :=
  | InsertOk (line : Z)
  | ReplaceOk (line : Z) (old_content : item)
  | ReplaceFail (line : Z) (error : string)
  | DeleteOk (start_line end_line lines_deleted : Z) (deleted_content : list item)
  | DeleteFail (start_line end_line : Z) (error : string)
  | UnknownFail (operation : string) (error : string).

(** The "success" entry of a record. *)
Definition succeeded (r : performed) : bool :=
  match r with
  | InsertOk _ | ReplaceOk _ _ | DeleteOk _ _ _ _ => true
  | ReplaceFail _ _ | DeleteFail _ _ _ | UnknownFail _ _ => false
  end.

(** [for i, line in enumerate(new_content): lines.insert(idx + i, line)],
    [i] being the number of elements already inserted. *)
Fixpoint insert_each (idx i : Z) (new_content : list string) (lines : list item)
  : list item :=
  match new_content with
  | [] => lines
  | line :: rest => insert_each idx (i + 1) rest (Py.insert (idx + i) (Str line) lines)
  end.

(** The key of [sorted]: minus the "line" entry when the key is present,
    else minus the "start_line" entry, else 0. *)
Definition target_line (op : Op.t) : Z :=
  match Op.line op with
  | Some l => l
  | None => default 0 (Op.start_line op)
  end.

Definition sort_key (op : Op.t) : Z := - target_line op.

(** [op.get("operation", "").lower()]. *)
Definition operation_type (op : Op.t) : string :=
  Py.lower (default "" (Op.operation op)).

(** The body of [for op in sorted_ops], on the line array. *)
Definition apply_op (lines : list item) (op : Op.t) : list item * performed :=
  let operation_type := operation_type op in
  if String.eqb operation_type "insert" then
    let line_num := default 0 (Op.line op) in
    let new_content := default (Str "") (Op.content op) in
    let idx := Z.min (Z.max 0 (line_num - 1)) (Py.len lines) in
    let lines' :=
      match new_content with
      | Lst l => insert_each idx 0 l lines
      | Str _ => Py.insert idx new_content lines
      end in
    (lines', InsertOk line_num)
  else if String.eqb operation_type "replace" then
    let line_num := default 0 (Op.line op) in
    let new_content := default (Str "") (Op.content op) in
    let idx := line_num - 1 in
    if (0 <=? idx) && (idx <? Py.len lines) then
      let old_line := lines !!! Z.to_nat idx in
      (<[Z.to_nat idx := new_content]> lines, ReplaceOk line_num old_line)
    else
      (lines,
       ReplaceFail line_num
         ("Line " +:+ Py.str_of_int line_num +:+ " is out of range (1-"
          +:+ Py.str_of_int (Py.len lines) +:+ ")"))
  else if String.eqb operation_type "delete" then
    let start_line := default 0 (Op.start_line op) in
    let end_line := default start_line (Op.end_line op) in
    let start_idx := Z.max 0 (start_line - 1) in
    let end_idx := Z.min (Py.len lines) end_line in
    if start_idx <? end_idx then
      let deleted_lines := Py.slice lines start_idx end_idx in
      (Py.del_slice lines start_idx end_idx,
       DeleteOk start_line end_line (end_idx - start_idx) deleted_lines)
    else
      (lines,
       DeleteFail start_line end_line
         ("Invalid line range: " +:+ Py.str_of_int start_line +:+ "-"
          +:+ Py.str_of_int end_line))
  else
    (lines,
     UnknownFail operation_type ("Unknown operation type: " +:+ operation_type)).

(** The loop over the sorted operations: the line array is shared, each
    record is appended to [line_ops_performed]. *)
Fixpoint run_ops
    (ops : list Op.t) (lines : list item) (line_ops_performed : list performed)
  : list item * list performed :=
  match ops with
  | [] => (lines, line_ops_performed)
  | op :: rest =>
      let '(lines', r) := apply_op lines op in
      run_ops rest lines' (line_ops_performed ++ [r])
  end.

(** [sorted(line_operations, key=...)] and the loop. *)
Definition sorted_ops (line_operations : list Op.t) : list Op.t :=
  Py.sorted sort_key line_operations.

Definition apply_line_operations (lines : list item) (line_operations : list Op.t)
  : list item * list performed :=
  run_ops (sorted_ops line_operations) lines [].

(** ["\n".join(lines)]: every element has to be a string; else the index
    of the first that is not. *)
Fixpoint strings_of (lines : list item) : string + nat :=
  match lines with
  | [] => inl ""
  | Lst _ :: _ => inr 0%nat
  | Str s :: rest =>
      match rest with
      | [] => inl s
      | _ :: _ =>
          match strings_of rest with
          | inl t => inl (s +:+ Py.NL +:+ t)
          | inr i => inr (S i)
          end
      end
  end.

Definition join_lines (lines : list item) : io string :=
  match strings_of lines with
  | inl text => ret text
  | inr i =>
      raise (Exn TypeError
               ("sequence item " +:+ Py.str_of_int (Z.of_nat i)
                +:+ ": expected str instance, list found"))
  end.

(** ** edit_file: the string replacements *)

(** [for old, new in replacements.items()], on the content and the
    [replacement_counts] dictionary. *)
Fixpoint replace_loop
    (items : list (string * string)) (content : string) (counts : gmap string nat)
  : string * gmap string nat :=
  match items with
  | [] => (content, counts)
  | (old, new) :: rest =>
      let count := Py.count content old in
      if (0 <? count)%nat
      then replace_loop rest (Py.replace content old new) (<[old := count]> counts)
      else replace_loop rest content counts
  end.

(** ** edit_file *)

Module Edit.
Record result := Result {
  success : bool;
  error : option string;
  original_size : option Z;
  new_size : option Z;
  changed : option bool;
  replacements_made : gmap string nat;
  line_operations_performed : list performed
}.
End Edit.

(** [if replacements: ...].  [replacements] is the dictionary as the list
    of its items in insertion order; an absent or empty argument is falsy. *)
Definition apply_replacements
    (replacements : option (list (string * string))) (content : string)
  : string * gmap string nat :=
  match replacements with
  | Some ((_ :: _) as items) => replace_loop items content ∅
  | _ => (content, ∅)
  end.

(** [if line_operations: ...]: split, run the sorted batch, join. *)
Definition apply_line_edits
    (line_operations : option (list Op.t)) (content : string)
  : io (string * list performed) :=
  match line_operations with
  | Some ((_ :: _) as ops) =>
      let lines := Str <$> Py.splitlines content in
      let '(lines, line_ops_performed) := apply_line_operations lines ops in
      let* content := join_lines lines in
      ret (content, line_ops_performed)
  | _ => ret (content, [])
  end.

(** The [try] block of [edit_file]. *)
Definition edit_existing
    (file_path : string)
    (replacements : option (list (string * string)))
    (line_operations : option (list Op.t))
  : io Edit.result :=
  try_except
    (let* original_content := read_text file_path in
     let '(content, replacement_counts) :=
       apply_replacements replacements original_content in
     let* edited := apply_line_edits line_operations content in
     let '(content, line_ops_performed) := edited in
     let* _ := open_write file_path ModeW content in
     ret {| Edit.success := true;
            Edit.error := None;
            Edit.original_size := Some (Z.of_nat (String.length original_content));
            Edit.new_size := Some (Z.of_nat (String.length content));
            Edit.changed := Some (negb (String.eqb original_content content));
            Edit.replacements_made := replacement_counts;
            Edit.line_operations_performed := line_ops_performed |})
    (fun e =>
       ret {| Edit.success := false;
              Edit.error := Some ("Error editing file: " +:+ exn_str e);
              Edit.original_size := None; Edit.new_size := None;
              Edit.changed := None;
              Edit.replacements_made := ∅;
              Edit.line_operations_performed := [] |}).

Definition edit_file
    (file_path : string)
    (replacements : option (list (string * string)))
    (line_operations : option (list Op.t))
    (create_if_missing : bool)
  : io Edit.result :=
  let* found := path_exists file_path in
  if negb found then
    if create_if_missing then
      let* _ := open_write file_path ModeW "" in
      edit_existing file_path replacements line_operations
    else
      ret {| Edit.success := false;
             Edit.error := Some ("File " +:+ file_path +:+ " does not exist");
             Edit.original_size := None; Edit.new_size := None;
             Edit.changed := None;
             Edit.replacements_made := ∅;
             Edit.line_operations_performed := [] |}
  else edit_existing file_path replacements line_operations.

(** ** write_file *)

Module Write.
Record result := Result { success : bool; error : option string }.
End Write.


(** ** fetch_page *)

Section FetchTool.

(** The collaborators: the temporary-file factory, the process launcher
    and the PDF-to-text converter. *)
Variable named_temporary_file : io string.
Variable subprocess_run :
  list string -> option Z -> option string -> io completed_process.
Variable pdf_to_text : string -> io string.

Definition fetch_page (url : string) : io string :=
  let* temp_pdf_path := named_temporary_file in
  try_finally
    (let command :=
       ["chromium"; "--headless"; "--disable-gpu";
        "--print-to-pdf=" +:+ temp_pdf_path; url] in
     let* result := subprocess_run command None None in
     if negb (returncode result =? 0) then
       ret ("Error fetching page: " +:+ proc_stderr result)
     else
       let* text := pdf_to_text temp_pdf_path in
       ret text)
    (try_except (unlink temp_pdf_path) (fun _ => ret tt)).

End FetchTool.

(** ** Notions the properties are stated with *)

(** The order [sorted] leaves its result in. *)
Definition key_le {A} (key : A -> Z) (a b : A) : Prop := key a <= key b.

(** The characters the lines of [l] take, one terminator each. *)
Fixpoint weight (l : list string) : nat :=
  match l with
  | [] => 0%nat
  | x :: l' => S (String.length x + weight l')
  end.

(** No line boundary but "\n". *)
Fixpoint plain_newlines (s : string) : bool :=
  match s with
  | "" => true
  | String c s' => (negb (Py.is_linebreak c) || Py.is_lf c) && plain_newlines s'
  end.

(** What an insert operation puts into the line array, and where. *)
Definition inserted_lines (op : Op.t) : list item :=
  match default (Str "") (Op.content op) with
  | Lst l => Str <$> l
  | Str s => [Str s]
  end.

Definition insert_index (lines : list item) (op : Op.t) : Z :=
  Z.min (Z.max 0 (default 0 (Op.line op) - 1)) (Py.len lines).



(** An element that is a string, and its text. *)
Definition is_str (it : item) : bool :=
  match it with Str _ => true | Lst _ => false end.

Definition item_text (it : item) : string :=
  match it with Str s => s | Lst _ => "" end.

(** A replace operation whose content is a string, or any other
    operation. *)
Definition well_typed (op : Op.t) : bool :=
  negb (String.eqb (operation_type op) "replace")
  || is_str (default (Str "") (Op.content op)).

(** The line operations of the tool's description: an insert of a string
    or of a list of strings, a replace by a string, a delete of a range or
    of one line, and an operation of any other kind; and the dictionary
    each is passed as. *)
Inductive line_operation :=
  | InsertAt (line : Z) (content : item)
  | ReplaceAt (line : Z) (content : string)
  | DeleteRange (start_line end_line : Z)
  | DeleteAt (start_line : Z)
  | OtherKind (kind : string).

Definition as_dict (o : line_operation) : Op.t :=
  match o with
  | InsertAt l c => Op.Insert l c
  | ReplaceAt l s => Op.Replace l (Str s)
  | DeleteRange s e => Op.Delete s e
  | DeleteAt s => Op.DeleteLine s
  | OtherKind k => Op.Make (Some k) None None None None
  end.

(** Plain sequential replacement: each pair in its turn, on the content the
    pair before left. *)
Definition sequential_replace (content : string) (items : list (string * string))
  : string :=
  foldl (λ c it, Py.replace c it.1 it.2) content items.

(** The content the pair at position [i] meets. *)
Definition content_before (content : string) (items : list (string * string)) (i : nat)
  : string :=
  sequential_replace content (take i items).

(** The matching lines of a numbered list, each with its newline
    stripped. *)
Definition hits_of (search : string → bool) (numbered : list (Z * string))
  : list Search.hit :=
  (λ p, Search.Hit p.1 (Py.rstrip_nl p.2)) <$> filter (λ p, search p.2 = true) numbered.

(** Every matching line of a text, numbered from 1. *)
Definition all_hits (search : string -> bool) (text : string) : list Search.hit :=
  hits_of search (enumerate 1 (Py.iter_lines text)).





(** ** Worlds for the examples *)

Definition abc : fs := {[ "f.txt" := File ("a" +:+ Py.NL +:+ "b" +:+ Py.NL +:+ "c") ]}.
Definition two_lines : fs := {[ "f.txt" := File ("a" +:+ Py.NL +:+ "b") ]}.
Definition ends_with_newline : fs := {[ "f.txt" := File ("a" +:+ Py.NL +:+ "b" +:+ Py.NL) ]}.
Definition greeting : fs := {[ "f.txt" := File "hello world, hello" ]}.
Definition empty_file : fs := {[ "empty.txt" := File "" ]}.
Definition five_errors : fs :=
  {[ "app.log" :=
       File (Py.join Py.NL
               ["E disk"; "ok"; "E net"; "E cpu"; "ok"; "E ram"; "E fan"; ""]) ]}.

(** A pattern compiler for the examples: a line matches when it starts with
    the pattern. *)
Definition starts_with (pattern : string) (ignore_case : bool)
  : outcome (string -> bool) :=
  Returned (String.prefix pattern).

(** A host without the browser, a converter that fails, and a temporary
    file factory. *)
Definition chromium_missing : exn :=
  Exn OSError "[Errno 2] No such file or directory: 'chromium'".
Definition conversion_failed : exn := Exn RuntimeError "cannot render the document".
Definition temp_pdf : io string :=
  λ σ, (Returned "/tmp/page0.pdf", <["/tmp/page0.pdf" := File ""]> σ).

(** ** Notions and worlds for the further properties *)

Definition start_index (op : Op.t) : Z :=
  Z.max 0 (default 0 (Op.start_line op) - 1).
Definition end_index (lines : list item) (op : Op.t) : Z :=
  Z.min (Py.len lines)
        (default (default 0 (Op.start_line op)) (Op.end_line op)).

(** An operation that leaves alone the [k] first lines whenever they all
    come before its target line. *)
Definition keeps_prefix (op : Op.t) : Prop :=
  ∀ (lines : list item) (k : nat),
    Z.of_nat k ≤ target_line op - 1 → (k ≤ length lines)%nat →
    take k (apply_op lines op).1 = take k lines.

(** The lines whose number, counted from [n], is not in [ts]. *)
Fixpoint drop_numbered (ts : list Z) (n : Z) (lines : list item) : list item :=
  match lines with
  | [] => []
  | x :: rest =>
      if bool_decide (n ∈ ts) then drop_numbered ts (n + 1) rest
      else x :: drop_numbered ts (n + 1) rest
  end.


Definition falsy {A} (o : option (list A)) : Prop := o = None ∨ o = Some [].

Definition crlf_file : fs :=
  {[ "dos.txt" := File ("a" +:+ String Py.CR (String Py.LF "b")) ]}.

(** [Path(p).is_file()]. *)
Definition is_file (σ : fs) (p : string) : bool :=
  match σ !! p with
  | Some (File _) => true
  | _ => false
  end.

Definition contains_e (line : string) : bool :=
  bool_decide (Py.count line "e" ≠ 0%nat).


(** No carriage return in the text. *)
Fixpoint no_cr (s : string) : bool :=
  match s with
  | "" => true
  | String c s' => negb (Py.is_cr c) && no_cr s'
  end.

(** * Properties *)

(** ** The Python built-ins *)

Lemma string_ind2 (P : string → Prop) :
  P "" → (∀ c, P (String c "")) →
  (∀ c d s, P s → P (String d s) → P (String c (String d s))) →
  ∀ s, P s.
Proof.
  intros H0 H1 H2 s.
  enough (P s ∧ ∀ c, P (String c s)) by tauto.
  induction s as [|d s [IH1 IH2]]; split; auto.
Qed.

Lemma splitlines_cons_nonempty c s : Py.splitlines (String c s) ≠ [].
Proof.
  simpl. destruct (Py.is_linebreak c); [done|].
  by destruct (Py.splitlines s).
Qed.

Lemma splitlines_nil s : Py.splitlines s = [] ↔ s = "".
Proof.
  split; [|by intros ->].
  destruct s; [done|]. intros H. by apply splitlines_cons_nonempty in H.
Qed.

Lemma is_cr_linebreak c : Py.is_cr c = true → Py.is_linebreak c = true.
Proof. unfold Py.is_cr. intros ->%Ascii.eqb_eq. reflexivity. Qed.

Lemma is_lf_linebreak c : Py.is_lf c = true → Py.is_linebreak c = true.
Proof. unfold Py.is_lf. intros ->%Ascii.eqb_eq. reflexivity. Qed.

Lemma is_lf_not_cr c : Py.is_lf c = true → Py.is_cr c = false.
Proof. unfold Py.is_lf. intros ->%Ascii.eqb_eq. reflexivity. Qed.

Lemma universal_newlines_cons c s :
  Py.universal_newlines (String c s) =
  if Py.is_cr c then
    String Py.LF (match s with
                  | String d s' =>
                      if Py.is_lf d then Py.universal_newlines s'
                      else Py.universal_newlines s
                  | "" => ""
                  end)
  else String c (Py.universal_newlines s).
Proof. by destruct s. Qed.

Lemma splitlines_cons c s :
  Py.splitlines (String c s) =
  if Py.is_linebreak c then
    "" :: (if Py.is_cr c then
             match s with
             | String d s' =>
                 if Py.is_lf d then Py.splitlines s' else Py.splitlines s
             | "" => []
             end
           else Py.splitlines s)
  else match Py.splitlines s with
       | [] => [String c ""]
       | l :: ls => String c l :: ls
       end.
Proof. by destruct s. Qed.

Lemma splitlines_universal_newlines s :
  Py.splitlines (Py.universal_newlines s) = Py.splitlines s.
Proof.
  induction s as [|c|c d s IH1 IH2] using string_ind2.
  - reflexivity.
  - simpl. destruct (Py.is_cr c) eqn:Hc; simpl.
    + by rewrite (is_cr_linebreak _ Hc).
    + by rewrite Hc.
  - rewrite universal_newlines_cons, (splitlines_cons c).
    destruct (Py.is_cr c) eqn:Hc.
    + rewrite (is_cr_linebreak _ Hc), splitlines_cons.
      change (Py.is_linebreak Py.LF) with true. change (Py.is_cr Py.LF) with false.
      cbn iota.
      destruct (Py.is_lf d) eqn:Hd.
      * by rewrite IH1.
      * by rewrite IH2.
    + rewrite splitlines_cons, Hc, IH2. done.
Qed.

Lemma string_length_app s t :
  String.length (s +:+ t) = (String.length s + String.length t)%nat.
Proof. induction s; simpl; [done|]. by rewrite IHs. Qed.

Lemma join_cons sep x y l :
  Py.join sep (x :: y :: l) = x +:+ sep +:+ Py.join sep (y :: l).
Proof. reflexivity. Qed.

Lemma join_length l :
  l ≠ [] → S (String.length (Py.join Py.NL l)) = weight l.
Proof.
  induction l as [|x [|y l] IH]; [done| |]; intros _.
  - simpl. lia.
  - rewrite join_cons, !string_length_app. cbn [weight] in *.
    specialize (IH ltac:(done)). simpl String.length at 2. lia.
Qed.

Lemma splitlines_weight_terminated t :
  (weight (Py.splitlines (t +:+ Py.NL)) ≤ S (String.length t))%nat.
Proof.
  induction t as [|c|c d s IH1 IH2] using string_ind2.
  - simpl. lia.
  - change (String c "" +:+ Py.NL) with (String c Py.NL).
    rewrite splitlines_cons. destruct (Py.is_linebreak c), (Py.is_cr c); simpl; lia.
  - change (String c (String d s) +:+ Py.NL) with (String c (String d s +:+ Py.NL)).
    rewrite splitlines_cons.
    change (String d s +:+ Py.NL) with (String d (s +:+ Py.NL)) in *.
    pose proof (splitlines_cons_nonempty d (s +:+ Py.NL)) as Hne.
    destruct (Py.is_linebreak c).
    + destruct (Py.is_cr c); [destruct (Py.is_lf d)|]; cbn [weight String.length] in *; lia.
    + destruct (Py.splitlines (String d (s +:+ Py.NL))); [done|].
      cbn [weight String.length] in *. lia.
Qed.

Lemma join_splitlines_shorter t :
  (String.length (Py.join Py.NL (Py.splitlines (t +:+ Py.NL))) ≤ String.length t)%nat.
Proof.
  pose proof (splitlines_weight_terminated t) as Hw.
  rewrite <- join_length in Hw; [lia|].
  destruct t; [done|]. apply splitlines_cons_nonempty.
Qed.

Lemma join_splitlines_changes t :
  Py.join Py.NL (Py.splitlines (t +:+ Py.NL)) ≠ t +:+ Py.NL.
Proof.
  intros Heq. pose proof (join_splitlines_shorter t) as Hlen.
  rewrite Heq, string_length_app in Hlen. simpl in Hlen. lia.
Qed.

Lemma join_push_char c l ls :
  Py.join Py.NL (String c l :: ls) = String c (Py.join Py.NL (l :: ls)).
Proof. by destruct ls. Qed.

Lemma join_splitlines_plain t :
  plain_newlines t = true →
  Py.join Py.NL (Py.splitlines (t +:+ Py.NL)) = t.
Proof.
  induction t as [|c t IH]; [done|].
  cbn [plain_newlines]. intros [Hc Ht]%andb_true_iff. specialize (IH Ht).
  change (String c t +:+ Py.NL) with (String c (t +:+ Py.NL)).
  rewrite splitlines_cons.
  assert (Hne : Py.splitlines (t +:+ Py.NL) ≠ []).
  { destruct t; [done|]. apply splitlines_cons_nonempty. }
  destruct (Py.is_linebreak c) eqn:Hb.
  - simpl in Hc. rewrite (is_lf_not_cr _ Hc).
    destruct (Py.splitlines (t +:+ Py.NL)) as [|l ls]; [done|].
    rewrite join_cons, IH. apply Ascii.eqb_eq in Hc. by subst c.
  - destruct (Py.splitlines (t +:+ Py.NL)) as [|l ls]; [done|].
    by rewrite join_push_char, IH.
Qed.

(** A file that ends with a newline is read as a content that ends with a
    newline. *)
Lemma universal_newlines_keeps_last_newline r :
  ∃ t, Py.universal_newlines (r +:+ Py.NL) = t +:+ Py.NL.
Proof.
  induction r as [|c|c d s [t1 IH1] [t2 IH2]] using string_ind2.
  - by exists "".
  - change (String c "" +:+ Py.NL) with (String c Py.NL).
    rewrite universal_newlines_cons. destruct (Py.is_cr c).
    + by exists "".
    + by exists (String c "").
  - change (String c (String d s) +:+ Py.NL)
      with (String c (String d (s +:+ Py.NL))).
    change (String d s +:+ Py.NL) with (String d (s +:+ Py.NL)) in IH2.
    rewrite universal_newlines_cons. destruct (Py.is_cr c).
    + destruct (Py.is_lf d).
      * exists (String Py.LF t1). by rewrite IH1.
      * exists (String Py.LF t2). by rewrite IH2.
    + exists (String c t2). by rewrite IH2.
Qed.

(** *** Counting and replacing *)
Lemma count_from_zero_replace old new s :
  Py.count_from old 0 s = 0%nat → Py.replace_from old new 0 s = s.
Proof.
  induction s as [|c s IH]; [done|].
  cbn [Py.count_from Py.replace_from].
  destruct (String.prefix old (String c s)); [done|].
  intros H. by rewrite IH.
Qed.

Lemma count_zero_replace s old new :
  Py.count s old = 0%nat → Py.replace s old new = s.
Proof.
  destruct old as [|a old]; [done|]. apply count_from_zero_replace.
Qed.

Lemma prefix_length a b :
  String.prefix a b = true → (String.length a ≤ String.length b)%nat.
Proof.
  revert b. induction a as [|c a IH]; intros b; [simpl; lia|].
  destruct b as [|d b]; simpl; [done|].
  destruct (Ascii.ascii_dec c d); [|done].
  intros H%IH. lia.
Qed.

Lemma replace_from_length old new k s :
  old ≠ "" → (k ≤ String.length s)%nat →
  (String.length (Py.replace_from old new k s)
   + Py.count_from old k s * String.length old + k
   = String.length s + Py.count_from old k s * String.length new)%nat.
Proof.
  intros Hold. revert k. induction s as [|c s IH]; intros k Hk.
  - simpl in *. lia.
  - cbn [Py.replace_from Py.count_from]. destruct k as [|k].
    + destruct (String.prefix old (String c s)) eqn:Hpre.
      * apply prefix_length in Hpre. simpl in Hpre.
        assert (1 ≤ String.length old)%nat by (destruct old; [done|simpl; lia]).
        specialize (IH (String.length old - 1)%nat ltac:(lia)).
        rewrite string_length_app. simpl String.length. nia.
      * specialize (IH 0%nat ltac:(lia)). simpl String.length. lia.
    + simpl in Hk. specialize (IH k ltac:(lia)). simpl String.length. lia.
Qed.

(** A replacement changes the length by what its occurrences account for. *)
Lemma replace_length s old new :
  old ≠ "" →
  (String.length (Py.replace s old new) + Py.count s old * String.length old
   = String.length s + Py.count s old * String.length new)%nat.
Proof.
  intros Hold. pose proof (replace_from_length old new 0 s Hold ltac:(lia)).
  destruct old; [done|]. unfold Py.replace, Py.count. lia.
Qed.

(** *** [sorted] *)
Section Sorted.
Context {A : Type} (key : A → Z).

Lemma sorted_insert_perm x l : Py.sorted_insert key x l ≡ₚ x :: l.
Proof.
  induction l as [|y l IH]; [done|]. simpl.
  destruct (key x <=? key y); [done|].
  rewrite IH. apply Permutation_swap.
Qed.

Lemma sorted_perm l : Py.sorted key l ≡ₚ l.
Proof.
  induction l as [|x l IH]; [done|]. simpl.
  by rewrite sorted_insert_perm, IH.
Qed.

Lemma sorted_insert_sorted x l :
  StronglySorted (key_le key) l → StronglySorted (key_le key) (Py.sorted_insert key x l).
Proof.
  induction 1 as [|y l Hl IH Hy]; simpl.
  - repeat constructor.
  - destruct (Z.leb_spec (key x) (key y)) as [Hxy|Hxy].
    + constructor; [by constructor|].
      constructor; [done|].
      eapply Forall_impl; [exact Hy|]. unfold key_le. intros; simpl in *. lia.
    + constructor; [done|].
      rewrite sorted_insert_perm. constructor; [unfold key_le; lia|done].
Qed.

Lemma sorted_sorted l : StronglySorted (key_le key) (Py.sorted key l).
Proof.
  induction l; simpl; [constructor|]. by apply sorted_insert_sorted.
Qed.


End Sorted.

(** *** The line operations *)
Lemma len_app {A} (l k : list A) : Py.len (l ++ k) = Py.len l + Py.len k.
Proof. unfold Py.len. rewrite length_app. lia. Qed.

Lemma len_nonneg {A} (l : list A) : 0 ≤ Py.len l.
Proof. unfold Py.len. lia. Qed.

Lemma insert_in_range {A} (idx : Z) (x : A) l :
  0 ≤ idx ≤ Py.len l →
  Py.insert idx x l = take (Z.to_nat idx) l ++ x :: drop (Z.to_nat idx) l.
Proof.
  intros H. unfold Py.insert.
  destruct (Z.ltb_spec idx 0); [lia|]. by rewrite Z.min_l by lia.
Qed.

Lemma insert_middle {A} (x : A) pre post :
  Py.insert (Py.len pre) x (pre ++ post) = pre ++ x :: post.
Proof.
  rewrite insert_in_range.
  - unfold Py.len. rewrite Nat2Z.id, take_app_length, drop_app_length. done.
  - rewrite len_app. pose proof (len_nonneg pre). pose proof (len_nonneg post). lia.
Qed.

Lemma insert_each_spec new pre mid post :
  insert_each (Py.len pre) (Py.len mid) new (pre ++ mid ++ post)
  = pre ++ mid ++ (Str <$> new) ++ post.
Proof.
  revert mid. induction new as [|x new IH]; intros mid; [done|].
  cbn [insert_each].
  replace (Py.len pre + Py.len mid) with (Py.len (pre ++ mid)) by apply len_app.
  rewrite (app_assoc pre mid post), insert_middle.
  replace (Py.len mid + 1) with (Py.len (mid ++ [Str x]))
    by (rewrite len_app; reflexivity).
  replace ((pre ++ mid) ++ Str x :: post) with (pre ++ (mid ++ [Str x]) ++ post)
    by (by rewrite <- !app_assoc).
  rewrite IH. by rewrite <- !app_assoc.
Qed.


Lemma apply_op_insert lines op :
  operation_type op = "insert" →
  apply_op lines op
  = (take (Z.to_nat (insert_index lines op)) lines ++ inserted_lines op
       ++ drop (Z.to_nat (insert_index lines op)) lines,
     InsertOk (default 0 (Op.line op))).
Proof.
  unfold apply_op, inserted_lines, insert_index. intros ->.
  cbn [String.eqb Ascii.eqb Bool.eqb]. cbn iota. 
  set (idx := Z.min _ _).
  assert (Hidx : 0 ≤ idx ≤ Py.len lines).
  { pose proof (len_nonneg lines). subst idx. lia. }
  f_equal.
  destruct (default (Str "") (Op.content op)) as [s|l].
  - by rewrite insert_in_range.
  - pose proof (insert_each_spec l (take (Z.to_nat idx) lines) []
                  (drop (Z.to_nat idx) lines)) as Hspec.
    cbn [app] in Hspec. rewrite take_drop in Hspec.
    replace (Py.len (take (Z.to_nat idx) lines)) with idx in Hspec
      by (unfold Py.len in *; rewrite length_take; lia).
    exact Hspec.
Qed.

Lemma apply_op_replace_fail lines op :
  operation_type op = "replace" →
  ¬ (1 ≤ default 0 (Op.line op) ≤ Py.len lines) →
  apply_op lines op
  = (lines,
     ReplaceFail (default 0 (Op.line op))
       ("Line " +:+ Py.str_of_int (default 0 (Op.line op))
        +:+ " is out of range (1-" +:+ Py.str_of_int (Py.len lines) +:+ ")")).
Proof.
  unfold apply_op. intros -> Hrange.
  cbn [String.eqb Ascii.eqb Bool.eqb]. cbn iota.
  destruct (Z.leb_spec 0 (default 0 (Op.line op) - 1));
    destruct (Z.ltb_spec (default 0 (Op.line op) - 1) (Py.len lines));
    simpl; try done; lia.
Qed.

Lemma apply_op_delete_fail lines op :
  operation_type op = "delete" →
  let start_line := default 0 (Op.start_line op) in
  let end_line := default start_line (Op.end_line op) in
  Z.min (Py.len lines) end_line ≤ Z.max 0 (start_line - 1) →
  apply_op lines op
  = (lines,
     DeleteFail start_line end_line
       ("Invalid line range: " +:+ Py.str_of_int start_line +:+ "-"
        +:+ Py.str_of_int end_line)).
Proof.
  intros Hop s e Hrange. unfold apply_op.
  rewrite Hop. cbn [String.eqb Ascii.eqb Bool.eqb]. cbn iota.
  fold s. fold e.
  destruct (Z.ltb_spec (Z.max 0 (s - 1)) (Z.min (Py.len lines) e)); [lia|done].
Qed.

Lemma apply_op_unknown lines op :
  operation_type op ≠ "insert" →
  operation_type op ≠ "replace" →
  operation_type op ≠ "delete" →
  apply_op lines op
  = (lines,
     UnknownFail (operation_type op)
       ("Unknown operation type: " +:+ operation_type op)).
Proof.
  unfold apply_op.
  intros H1%String.eqb_neq H2%String.eqb_neq H3%String.eqb_neq.
  by rewrite H1, H2, H3.
Qed.

Lemma apply_op_failed_unchanged lines op :
  succeeded (apply_op lines op).2 = false → (apply_op lines op).1 = lines.
Proof.
  unfold apply_op.
  repeat match goal with
         | |- context [if ?b then _ else _] => destruct b
         end; simpl; done.
Qed.



Lemma run_ops_done ops lines acc :
  run_ops ops lines acc
  = ((run_ops ops lines []).1, acc ++ (run_ops ops lines []).2).
Proof.
  revert lines acc. induction ops as [|op ops IH]; intros lines acc.
  - simpl. by rewrite app_nil_r.
  - cbn [run_ops]. destruct (apply_op lines op) as [lines' r].
    rewrite (IH lines' (acc ++ [r])), (IH lines' ([] ++ [r])).
    cbn [fst snd]. by rewrite <- app_assoc.
Qed.

Lemma run_ops_cons op ops lines :
  run_ops (op :: ops) lines []
  = ((run_ops ops (apply_op lines op).1 []).1,
     (apply_op lines op).2 :: (run_ops ops (apply_op lines op).1 []).2).
Proof.
  cbn [run_ops]. destruct (apply_op lines op) as [lines' r].
  by rewrite run_ops_done.
Qed.



Lemma run_ops_all_fail ops lines :
  Forall (λ op, succeeded (apply_op lines op).2 = false) ops →
  run_ops ops lines [] = (lines, (λ op, (apply_op lines op).2) <$> ops).
Proof.
  induction 1 as [|op ops Hop _ IH]; [done|].
  rewrite run_ops_cons, (apply_op_failed_unchanged _ _ Hop), IH. done.
Qed.

Lemma strings_of_all_str lines :
  Forall (λ it, is_str it = true) lines →
  strings_of lines = inl (Py.join Py.NL (item_text <$> lines)).
Proof.
  induction 1 as [|it lines Hit Hall IH]; [done|].
  destruct it as [s|]; [|done]. cbn [strings_of].
  destruct lines as [|it' lines]; [done|].
  rewrite IH. reflexivity.
Qed.

Lemma strings_of_Str l : strings_of (Str <$> l) = inl (Py.join Py.NL l).
Proof.
  rewrite strings_of_all_str.
  - rewrite <- list_fmap_compose. by rewrite list_fmap_id.
  - apply Forall_fmap, Forall_true. done.
Qed.

Lemma apply_op_all_str lines op :
  well_typed op = true →
  Forall (λ it, is_str it = true) lines →
  Forall (λ it, is_str it = true) (apply_op lines op).1.
Proof.
  intros Hty Hall. unfold apply_op.
  destruct (String.eqb (operation_type op) "insert") eqn:Hi.
  - cbn [fst]. apply String.eqb_eq in Hi.
    pose proof (apply_op_insert lines op Hi) as Hins.
    unfold apply_op in Hins. rewrite Hi in Hins. cbn in Hins.
    injection Hins as ->.
    rewrite !Forall_app. split_and!; [by apply Forall_take| |by apply Forall_drop].
    unfold inserted_lines. destruct (default _ _); [by repeat constructor|].
    apply Forall_fmap, Forall_true. done.
  - unfold well_typed in Hty.
    destruct (String.eqb (operation_type op) "replace") eqn:Hr.
    + simpl in Hty. destruct (_ && _); cbn [fst]; [|done].
      by apply Forall_insert.
    + destruct (String.eqb (operation_type op) "delete"); [|done].
      destruct (_ <? _); cbn [fst]; [|done].
      unfold Py.del_slice. rewrite Forall_app.
      split; [by apply Forall_take|by apply Forall_drop].
Qed.

Lemma as_dict_well_typed o : well_typed (as_dict o) = true.
Proof.
  destruct o; try reflexivity.
  unfold well_typed. cbn [as_dict Op.content default is_str].
  apply orb_true_r.
Qed.

Lemma run_ops_all_str ops lines :
  Forall (λ op, well_typed op = true) ops →
  Forall (λ it, is_str it = true) lines →
  Forall (λ it, is_str it = true) (run_ops ops lines []).1.
Proof.
  intros Hty. revert lines. induction Hty as [|op ops Hop _ IH]; intros lines Hall; [done|].
  rewrite run_ops_cons. cbn [fst]. apply IH. by apply apply_op_all_str.
Qed.


(** *** edit_file on an existing file *)
Lemma edit_file_found p raw repl lops create (σ : fs) :
  σ !! p = Some (File raw) →
  edit_file p repl lops create σ = edit_existing p repl lops σ.
Proof.
  intros Hp. unfold edit_file, bind, path_exists. rewrite Hp.
  rewrite bool_decide_true by eauto. reflexivity.
Qed.

Lemma apply_line_edits_state lops content (σ : fs) :
  (apply_line_edits lops content σ).2 = σ.
Proof.
  unfold apply_line_edits. destruct lops as [[|op ops]|]; try done.
  destruct (apply_line_operations _ _) as [lines perf].
  unfold bind, join_lines. by destruct (strings_of lines).
Qed.

Lemma edit_existing_ok p raw repl lops (σ : fs) text perf :
  σ !! p = Some (File raw) →
  (apply_line_edits lops (apply_replacements repl (Py.universal_newlines raw)).1 σ).1
  = Returned (text, perf) →
  edit_existing p repl lops σ
  = (Returned
       {| Edit.success := true;
          Edit.error := None;
          Edit.original_size :=
            Some (Z.of_nat (String.length (Py.universal_newlines raw)));
          Edit.new_size := Some (Z.of_nat (String.length text));
          Edit.changed :=
            Some (negb (String.eqb (Py.universal_newlines raw) text));
          Edit.replacements_made :=
            (apply_replacements repl (Py.universal_newlines raw)).2;
          Edit.line_operations_performed := perf |},
     <[p := File text]> σ).
Proof.
  intros Hp Hedit. unfold edit_existing, try_except. unfold bind at 1. unfold read_text.
  rewrite Hp.
  destruct (apply_replacements repl (Py.universal_newlines raw)) as [content counts].
  cbn [fst snd] in *.
  unfold bind at 1.
  pose proof (apply_line_edits_state lops content σ) as Hst.
  destruct (apply_line_edits lops content σ) as [r σ']. cbn [fst snd] in *.
  subst r σ'. unfold bind, open_write, ret. by rewrite Hp.
Qed.

Lemma edit_existing_join_error p raw repl ops (σ : fs) i :
  σ !! p = Some (File raw) → ops ≠ [] →
  strings_of (apply_line_operations
                (Str <$> Py.splitlines
                   (apply_replacements repl (Py.universal_newlines raw)).1) ops).1
  = inr i →
  edit_existing p repl (Some ops) σ
  = (Returned
       {| Edit.success := false;
          Edit.error :=
            Some ("Error editing file: sequence item "
                  +:+ Py.str_of_int (Z.of_nat i)
                  +:+ ": expected str instance, list found");
          Edit.original_size := None; Edit.new_size := None;
          Edit.changed := None;
          Edit.replacements_made := ∅;
          Edit.line_operations_performed := [] |},
     σ).
Proof.
  intros Hp Hne Hjoin. unfold edit_existing, try_except. unfold bind at 1. unfold read_text.
  rewrite Hp.
  destruct (apply_replacements repl (Py.universal_newlines raw)) as [content counts].
  cbn [fst snd] in *. unfold bind at 1. unfold apply_line_edits.
  destruct ops as [|op ops]; [done|].
  destruct (apply_line_operations _ _) as [lines perf]. cbn [fst] in Hjoin.
  unfold bind, join_lines. rewrite Hjoin. reflexivity.
Qed.

Lemma StronglySorted_weaken {A} (R R' : A → A → Prop) l :
  (∀ a b, R a b → R' a b) → StronglySorted R l → StronglySorted R' l.
Proof.
  intros HR. induction 1 as [|x l Hl IH Hx]; constructor; [done|].
  eapply Forall_impl; eauto.
Qed.




Lemma apply_line_edits_ok ops content (σ : fs) :
  ops ≠ [] →
  Forall (λ it, is_str it = true)
    (apply_line_operations (Str <$> Py.splitlines content) ops).1 →
  apply_line_edits (Some ops) content σ
  = (Returned
       (Py.join Py.NL
          (item_text <$> (apply_line_operations (Str <$> Py.splitlines content) ops).1),
        (apply_line_operations (Str <$> Py.splitlines content) ops).2),
     σ).
Proof.
  intros Hne Hall. unfold apply_line_edits. destruct ops as [|op ops]; [done|].
  destruct (apply_line_operations _ _) as [lines perf]. cbn [fst snd] in *.
  unfold bind, join_lines. by rewrite (strings_of_all_str _ Hall).
Qed.

Lemma all_str_splitlines content :
  Forall (λ it, is_str it = true) (Str <$> Py.splitlines content).
Proof. apply Forall_fmap, Forall_true. done. Qed.

Lemma length_join_neq a b :
  (String.length a < String.length b)%nat → String.eqb b a = false.
Proof. intros Hlt. apply String.eqb_neq. intros ->. lia. Qed.

(** *** The string replacements *)

Lemma replace_loop_content items content counts :
  (replace_loop items content counts).1 = sequential_replace content items.
Proof.
  revert content counts.
  induction items as [|[old new] items IH]; intros content counts; [done|].
  cbn [replace_loop sequential_replace foldl fst snd].
  destruct (Nat.ltb_spec 0 (Py.count content old)) as [Hpos|Hzero].
  - apply IH.
  - rewrite count_zero_replace by lia. apply IH.
Qed.

Lemma replace_loop_other items content (counts : gmap string nat) k :
  k ∉ items.*1 →
  (replace_loop items content counts).2 !! k = counts !! k.
Proof.
  revert content counts.
  induction items as [|[old new] items IH]; intros content counts Hk; [done|].
  cbn [replace_loop]. apply not_elem_of_cons in Hk as [Hne Hk]. simpl in Hne.
  destruct (0 <? Py.count content old)%nat.
  - rewrite IH by done. by rewrite lookup_insert_ne.
  - by apply IH.
Qed.

Lemma replace_loop_counts items content (counts : gmap string nat) i old new :
  NoDup items.*1 →
  items !! i = Some (old, new) →
  counts !! old = None →
  (replace_loop items content counts).2 !! old
  = (let n := Py.count (content_before content items i) old in
     if decide (n = 0%nat) then None else Some n).
Proof.
  revert i content counts.
  induction items as [|[o n] items IH]; intros i content counts Hnd Hi Hnone; [done|].
  apply NoDup_cons in Hnd as [Hfresh Hnd].
  destruct i as [|i].
  - injection Hi as -> ->. cbn [replace_loop content_before take sequential_replace foldl].
    destruct (Nat.ltb_spec 0 (Py.count content old)) as [Hpos|Hzero].
    + rewrite replace_loop_other by done. rewrite lookup_insert_eq.
      cbn zeta. by rewrite decide_False by lia.
    + rewrite replace_loop_other by done. rewrite Hnone.
      cbn zeta. by rewrite decide_True by lia.
  - cbn [lookup list_lookup] in Hi. simpl in Hi.
    assert (Hne : o ≠ old).
    { intros ->. apply Hfresh. apply list_elem_of_fmap.
      exists (old, new). split; [done|]. by eapply list_elem_of_lookup_2. }
    cbn [replace_loop content_before take sequential_replace foldl fst snd].
    destruct (Nat.ltb_spec 0 (Py.count content o)) as [Hpos|Hzero].
    + rewrite (IH i) by (done || by rewrite lookup_insert_ne). reflexivity.
    + rewrite (IH i) by done. by rewrite (count_zero_replace content o n) by lia.
Qed.

(** *** search_in_file *)

Lemma search_loop_unlimited search max_matches numbered acc :
  max_matches ≤ 0 →
  search_loop search max_matches numbered acc = acc ++ hits_of search numbered.
Proof.
  intros Hmax. revert acc.
  induction numbered as [|[i line] rest IH]; intros acc.
  - by rewrite app_nil_r.
  - cbn [search_loop]. unfold hits_of in *. rewrite filter_cons. cbn [snd].
    destruct (search line) eqn:Hs.
    + rewrite decide_True by done.
      destruct (Z.ltb_spec 0 max_matches); [lia|]. cbn [andb].
      rewrite IH. rewrite fmap_cons. cbn [fst snd]. by rewrite <- app_assoc.
    + rewrite decide_False by (simpl; congruence). apply IH.
Qed.

Lemma search_loop_capped search max_matches numbered acc :
  0 < max_matches →
  Py.len acc < max_matches →
  search_loop search max_matches numbered acc
  = take (Z.to_nat max_matches) (acc ++ hits_of search numbered).
Proof.
  intros Hmax. revert acc.
  induction numbered as [|[i line] rest IH]; intros acc Hacc.
  - rewrite app_nil_r. cbn [search_loop].
    rewrite take_ge; [done|]. unfold Py.len in Hacc. lia.
  - cbn [search_loop]. unfold hits_of in *. rewrite filter_cons. cbn [snd].
    destruct (search line) eqn:Hs.
    + rewrite decide_True by done. rewrite fmap_cons. cbn [fst snd].
      destruct (Z.ltb_spec 0 max_matches); [|lia]. cbn [andb].
      match goal with
      | |- _ = take _ (acc ++ ?h :: ?t) =>
          replace (acc ++ h :: t) with ((acc ++ [h]) ++ t)
            by (by rewrite <- app_assoc)
      end.
      remember (acc ++ [_]) as acc' eqn:Hacc'.
      assert (Hlen' : Py.len acc' = Py.len acc + 1).
      { subst acc'. unfold Py.len. rewrite length_app. simpl. lia. }
      destruct (Z.leb_spec max_matches (Py.len acc')).
      * rewrite take_app_le by (unfold Py.len in *; lia).
        rewrite take_ge; [done|]. unfold Py.len in *; lia.
      * apply IH. lia.
    + rewrite decide_False by (simpl; congruence). by apply IH.
Qed.

Lemma search_in_file_found re_compile (σ : fs) p raw pattern cs max_matches regex :
  σ !! p = Some (File raw) →
  re_compile pattern (negb cs) = Returned regex →
  search_in_file re_compile p pattern cs max_matches σ
  = (Returned
       (let matches :=
          search_loop regex max_matches
            (enumerate 1 (Py.iter_lines (Py.universal_newlines raw))) [] in
        {| Search.success := true;
           Search.error := None;
           Search.matches := matches;
           Search.match_count := Py.len matches;
           Search.truncated :=
             Some ((0 <? max_matches) && (max_matches <=? Py.len matches)) |}),
     σ).
Proof.
  intros Hp Hre. unfold search_in_file, bind, path_exists, try_except, read_text.
  rewrite Hp, bool_decide_true by eauto. cbn [negb]. by rewrite Hre, Hp.
Qed.

(** *** show_file and write_file *)


Lemma show_file_found (σ : fs) p raw start_line num_lines :
  σ !! p = Some (File raw) →
  show_file p start_line num_lines σ
  = (Returned
       (let start_line := Z.max 1 start_line in
        let all_lines := Py.splitlines (Py.universal_newlines raw) in
        let total_lines := Py.len all_lines in
        if total_lines <? start_line then
          {| Show.success := false;
             Show.error :=
               Some ("Start line " +:+ Py.str_of_int start_line
                     +:+ " is beyond the file length ("
                     +:+ Py.str_of_int total_lines +:+ " lines)");
             Show.content := ""; Show.lines_shown := 0;
             Show.total_lines := total_lines;
             Show.start_line := None; Show.end_line := None |}
        else
          let start_idx := start_line - 1 in
          let end_idx :=
            match num_lines with
            | None => total_lines
            | Some n => Z.min (start_idx + n) total_lines
            end in
          let selected_lines := Py.slice all_lines start_idx end_idx in
          {| Show.success := true;
             Show.error := None;
             Show.content := Py.join Py.NL selected_lines;
             Show.lines_shown := Py.len selected_lines;
             Show.total_lines := total_lines;
             Show.start_line := Some start_line;
             Show.end_line := Some (start_idx + Py.len selected_lines) |}),
     σ).
Proof.
  intros Hp. unfold show_file, bind, path_exists, try_except, read_text.
  rewrite Hp, bool_decide_true by eauto. cbn [negb]. rewrite Hp.
  cbn zeta. by destruct (_ <? _).
Qed.

Lemma universal_newlines_empty raw : Py.universal_newlines raw = "" ↔ raw = "".
Proof.
  split; [|by intros ->]. destruct raw as [|c raw]; [done|].
  rewrite universal_newlines_cons. by destruct (Py.is_cr c).
Qed.

Lemma zero_lines_iff_empty raw :
  Py.splitlines (Py.universal_newlines raw) = [] ↔ raw = "".
Proof. by rewrite splitlines_universal_newlines, splitlines_nil. Qed.


(** *** Which tools always return *)








(** ** Examples *)

Example splitlines_drops_the_last_break :
  Py.splitlines ("ab" +:+ Py.NL +:+ "cd" +:+ Py.NL) = ["ab"; "cd"].
Proof. reflexivity. Qed.

Example splitlines_crlf_is_one_break :
  Py.splitlines (String Py.CR (String Py.LF "x")) = [""; "x"].
Proof. reflexivity. Qed.

Example count_does_not_overlap : Py.count "aaaa" "aa" = 2%nat.
Proof. reflexivity. Qed.

Example replace_does_not_overlap : Py.replace "aaaaa" "aa" "b" = "bba".
Proof. reflexivity. Qed.

Example replace_empty_pattern : Py.replace "abc" "" "-" = "-a-b-c-".
Proof. reflexivity. Qed.

Example lower_operation : Py.lower "InSeRT" = "insert".
Proof. reflexivity. Qed.

Example delete_two_then_one :
  apply_line_operations [Str "a"; Str "b"; Str "c"] [Op.DeleteLine 1; Op.Delete 2 3]
  = ([], [DeleteOk 2 3 2 [Str "b"; Str "c"]; DeleteOk 1 1 1 [Str "a"]]).
Proof. reflexivity. Qed.

Example replace_with_a_list_fails_the_call :
  (edit_file "f.txt" None (Some [Op.Replace 1 (Lst ["x"])]) false two_lines).1
  = Returned
      {| Edit.success := false;
         Edit.error :=
           Some "Error editing file: sequence item 0: expected str instance, list found";
         Edit.original_size := None; Edit.new_size := None; Edit.changed := None;
         Edit.replacements_made := ∅;
         Edit.line_operations_performed := [] |}.
Proof. vm_compute. reflexivity. Qed.

Example show_three_of_five :
  (show_file "f.txt" 3 (Some 10)
     {[ "f.txt" := File (Py.join Py.NL ["1"; "2"; "3"; "4"; "5"]) ]}).1
  = Returned
      {| Show.success := true; Show.error := None;
         Show.content := Py.join Py.NL ["3"; "4"; "5"];
         Show.lines_shown := 3; Show.total_lines := 5;
         Show.start_line := Some 3; Show.end_line := Some 5 |}.
Proof. vm_compute. reflexivity. Qed.

(** ** The claims *)


(** C2. With no line operations, [edit_file] writes the content that
    plain sequential replacement gives: each pair, in the order of the
    dictionary, replaces every occurrence of its key in the content the pair
    before left.  [replacements_made] maps a key to the number of its
    occurrences in the content it met when that number is positive, and has
    no entry for it otherwise. *)
Theorem only_replacements_is_sequential_replace
    (σ : fs) (p raw : string) (items : list (string * string))
    (line_operations : option (list Op.t)) (create : bool) :
  σ !! p = Some (File raw) →
  NoDup items.*1 →
  line_operations = None ∨ line_operations = Some [] →
  let content := Py.universal_newlines raw in
  ∃ r,
    edit_file p (Some items) line_operations create σ
    = (Returned r, <[p := File (sequential_replace content items)]> σ)
    ∧ Edit.success r = true
    ∧ Edit.line_operations_performed r = []
    ∧ (∀ i old new,
         items !! i = Some (old, new) →
         Edit.replacements_made r !! old
         = (let n := Py.count (content_before content items i) old in
            if decide (n = 0%nat) then None else Some n))
    ∧ (∀ k, k ∉ items.*1 → Edit.replacements_made r !! k = None).
Proof.
  intros Hp Hnd Hnone content.
  assert (Hrepl : apply_replacements (Some items) content
                  = replace_loop items content ∅) by by destruct items.
  eexists. rewrite (edit_file_found _ _ _ _ _ _ Hp).
  erewrite edit_existing_ok;
    [|exact Hp|by destruct Hnone as [-> | ->]].
  fold content. rewrite Hrepl, replace_loop_content.
  split; [reflexivity|].
  cbn [Edit.success Edit.replacements_made Edit.line_operations_performed].
  split_and!; [done|done| |].
  - intros i old new Hi. by apply (replace_loop_counts _ _ _ i old new).
  - intros k Hk. by rewrite replace_loop_other.
Qed.

Lemma only_replacements_witness :
  ∃ r,
    edit_file "f.txt" (Some [("hello", "bye"); ("absent", "x"); ("bye", "ciao")])
      None false greeting
    = (Returned r, <["f.txt" := File "ciao world, ciao"]> greeting)
    ∧ Edit.success r = true
    ∧ Edit.line_operations_performed r = []
    ∧ (∀ i old new,
         [("hello", "bye"); ("absent", "x"); ("bye", "ciao")] !! i = Some (old, new) →
         Edit.replacements_made r !! old
         = (let n := Py.count
                       (content_before "hello world, hello"
                          [("hello", "bye"); ("absent", "x"); ("bye", "ciao")] i) old in
            if decide (n = 0%nat) then None else Some n))
    ∧ (∀ k, k ∉ [("hello", "bye"); ("absent", "x"); ("bye", "ciao")].*1 →
            Edit.replacements_made r !! k = None).
Proof.
  apply (only_replacements_is_sequential_replace greeting "f.txt"
           "hello world, hello"
           [("hello", "bye"); ("absent", "x"); ("bye", "ciao")] None false).
  - reflexivity.
  - apply (bool_decide_unpack _). vm_compute. exact I.
  - by left.
Defined.

(** C3. A replace whose line is outside 1..len(lines) and a delete whose
    clamped range is empty record a failure and leave the line array as it
    was; the message of the replace names the range 1-len(lines).  On three
    lines, replace at line 10 reports the range 1-3 and delete 5-3 fails. *)
Theorem failed_replace_and_delete_leave_lines (lines : list item) (op : Op.t) :
  (operation_type op = "replace" →
   ¬ (1 ≤ default 0 (Op.line op) ≤ Py.len lines) →
   apply_op lines op
   = (lines,
      ReplaceFail (default 0 (Op.line op))
        ("Line " +:+ Py.str_of_int (default 0 (Op.line op))
         +:+ " is out of range (1-" +:+ Py.str_of_int (Py.len lines) +:+ ")")))
  ∧ (operation_type op = "delete" →
     let start_line := default 0 (Op.start_line op) in
     let end_line := default start_line (Op.end_line op) in
     Z.min (Py.len lines) end_line ≤ Z.max 0 (start_line - 1) →
     apply_op lines op
     = (lines,
        DeleteFail start_line end_line
          ("Invalid line range: " +:+ Py.str_of_int start_line +:+ "-"
           +:+ Py.str_of_int end_line)))
  ∧ (∀ a b c content,
       apply_op [a; b; c] (Op.Replace 10 content)
       = ([a; b; c], ReplaceFail 10 "Line 10 is out of range (1-3)"))
  ∧ (∀ a b c,
       apply_op [a; b; c] (Op.Delete 5 3)
       = ([a; b; c], DeleteFail 5 3 "Invalid line range: 5-3")).
Proof.
  split_and!.
  - apply apply_op_replace_fail.
  - apply apply_op_delete_fail.
  - done.
  - done.
Qed.

Lemma failed_replace_and_delete_witness :
  apply_op [Str "a"; Str "b"] (Op.Replace 0 (Str "z"))
  = ([Str "a"; Str "b"], ReplaceFail 0 "Line 0 is out of range (1-2)")
  ∧ apply_op [Str "a"; Str "b"] (Op.Delete 3 4)
    = ([Str "a"; Str "b"], DeleteFail 3 4 "Invalid line range: 3-4").
Proof.
  split.
  - apply (proj1 (failed_replace_and_delete_leave_lines
                    [Str "a"; Str "b"] (Op.Replace 0 (Str "z")))).
    + reflexivity.
    + vm_compute. intros [H _]. apply H. reflexivity.
  - apply (proj1 (proj2 (failed_replace_and_delete_leave_lines
                           [Str "a"; Str "b"] (Op.Delete 3 4)))).
    + reflexivity.
    + vm_compute. discriminate.
Defined.

(** C4. An insert puts its content at the index line-1 floored at 0 and
    capped at len(lines), so an insert past the end appends; a list is
    inserted element by element in its order, a string alone; the record
    always says success. *)
Theorem insert_clamps_and_succeeds (lines : list item) (op : Op.t) :
  operation_type op = "insert" →
  let line_num := default 0 (Op.line op) in
  let idx := insert_index lines op in
  (0 ≤ idx ≤ Py.len lines)
  ∧ idx = (if line_num - 1 <? 0 then 0
           else if Py.len lines <? line_num - 1 then Py.len lines
                else line_num - 1)
  ∧ apply_op lines op
    = (take (Z.to_nat idx) lines ++ inserted_lines op ++ drop (Z.to_nat idx) lines,
       InsertOk line_num)
  ∧ (Py.len lines ≤ line_num - 1 → (apply_op lines op).1 = lines ++ inserted_lines op)
  ∧ (∀ l, Op.content op = Some (Lst l) → inserted_lines op = Str <$> l)
  ∧ (∀ s, Op.content op = Some (Str s) → inserted_lines op = [Str s])
  ∧ succeeded (apply_op lines op).2 = true.
Proof.
  intros Hop line_num idx.
  pose proof (len_nonneg lines) as Hlen.
  pose proof (apply_op_insert lines op Hop) as Hap. fold idx line_num in Hap.
  assert (Hidx : 0 ≤ idx ≤ Py.len lines) by (subst idx; unfold insert_index; lia).
  split_and!.
  - lia.
  - lia.
  - subst idx line_num. unfold insert_index.
    destruct (Z.ltb_spec (default 0 (Op.line op) - 1) 0);
      destruct (Z.ltb_spec (Py.len lines) (default 0 (Op.line op) - 1)); lia.
  - exact Hap.
  - intros Hpast. rewrite Hap. cbn [fst].
    assert (idx = Py.len lines) as -> by (subst idx; unfold insert_index; lia).
    unfold Py.len. rewrite Nat2Z.id, firstn_all, drop_all. by rewrite app_nil_r.
  - intros l Hl. unfold inserted_lines. by rewrite Hl.
  - intros s Hs. unfold inserted_lines. by rewrite Hs.
  - by rewrite Hap.
Qed.

Lemma insert_clamps_and_succeeds_witness :
  apply_op [Str "a"; Str "b"] (Op.Insert 9 (Lst ["x"; "y"]))
  = ([Str "a"; Str "b"; Str "x"; Str "y"], InsertOk 9).
Proof.
  exact (proj1 (proj2 (proj2
    (insert_clamps_and_succeeds [Str "a"; Str "b"] (Op.Insert 9 (Lst ["x"; "y"]))
       eq_refl)))).
Defined.



(** C6. [fetch_page] has a [finally] and no [except]: when the browser
    cannot be launched, or the converter raises, the exception reaches the
    caller.  Only a non-zero exit code becomes an error-prefixed string. *)
Theorem fetch_page_lets_exceptions_through (url : string) (σ : fs) :
  (∀ convert,
     (fetch_page temp_pdf (λ _ _ _, raise chromium_missing) convert url σ).1
     = Raised chromium_missing)
  ∧ (fetch_page temp_pdf (λ _ _ _, ret (Completed 0 "" ""))
       (λ _, raise conversion_failed) url σ).1
    = Raised conversion_failed
  ∧ (∀ e convert,
       (fetch_page temp_pdf (λ _ _ _, raise e) convert url σ).1 = Raised e)
  ∧ (∀ convert,
       (fetch_page temp_pdf (λ _ _ _, ret (Completed 1 "" "net::ERR_FAILED")) convert
          url σ).1
       = Returned "Error fetching page: net::ERR_FAILED").
Proof.
  unfold fetch_page, bind, try_finally, try_except, temp_pdf, raise, ret, unlink.
  cbn. rewrite !lookup_insert_eq. split_and!; done.
Qed.

(** C7. On a readable file and a pattern that compiles, a positive
    [max_matches] gives the first [max_matches] matching lines, never more,
    and [truncated] says whether the cap was reached; zero or a negative
    [max_matches] gives every matching line and [truncated] false.  With
    [max_matches] 2 and five matching lines there are two matches and
    [truncated] is true. *)
Theorem search_in_file_cap
    (re_compile : string → bool → outcome (string → bool))
    (σ : fs) (p raw pattern : string) (cs : bool) (max_matches : Z)
    (regex : string → bool) :
  σ !! p = Some (File raw) →
  re_compile pattern (negb cs) = Returned regex →
  let every := all_hits regex (Py.universal_newlines raw) in
  ∃ r,
    search_in_file re_compile p pattern cs max_matches σ = (Returned r, σ)
    ∧ Search.success r = true
    ∧ Search.match_count r = Py.len (Search.matches r)
    ∧ (0 < max_matches →
       Search.matches r = take (Z.to_nat max_matches) every
       ∧ Search.match_count r ≤ max_matches
       ∧ Search.truncated r = Some (max_matches <=? Py.len every))
    ∧ (max_matches ≤ 0 →
       Search.matches r = every ∧ Search.truncated r = Some false)
    ∧ (max_matches = 2 → Py.len every = 5 →
       Py.len (Search.matches r) = 2 ∧ Search.truncated r = Some true).
Proof.
  intros Hp Hre every.
  eexists. split; [by apply search_in_file_found|].
  cbn zeta. cbn [Search.success Search.matches Search.match_count Search.truncated].
  assert (Hcap : 0 < max_matches →
                 search_loop regex max_matches
                   (enumerate 1 (Py.iter_lines (Py.universal_newlines raw))) []
                 = take (Z.to_nat max_matches) every).
  { intros Hpos. by rewrite search_loop_capped. }
  split_and!; [done|done| | |].
  - intros Hpos. rewrite Hcap by done. split_and!; [done| |].
    + unfold Py.len. rewrite length_take. lia.
    + destruct (Z.ltb_spec 0 max_matches); [|lia]. cbn [andb]. f_equal.
      unfold Py.len. rewrite length_take.
      destruct (Z.leb_spec max_matches (Z.of_nat (Init.Nat.min (Z.to_nat max_matches) (length every))));
        destruct (Z.leb_spec max_matches (Z.of_nat (length every))); lia.
  - intros Hle. rewrite search_loop_unlimited by done. split; [done|].
    destruct (Z.ltb_spec 0 max_matches); [lia|done].
  - intros -> Hfive. rewrite Hcap by done. unfold Py.len in *.
    rewrite length_take.
    replace (Init.Nat.min (Z.to_nat 2) (length every)) with 2%nat by lia.
    done.
Qed.

Lemma search_in_file_cap_witness :
  ∃ r,
    search_in_file starts_with "app.log" "E" true 2 five_errors
    = (Returned r, five_errors)
    ∧ Search.matches r = [Search.Hit 1 "E disk"; Search.Hit 3 "E net"]
    ∧ Py.len (Search.matches r) = 2
    ∧ Search.truncated r = Some true.
Proof.
  destruct (search_in_file_cap starts_with five_errors "app.log"
              (Py.join Py.NL
                 ["E disk"; "ok"; "E net"; "E cpu"; "ok"; "E ram"; "E fan"; ""])
              "E" true 2 (String.prefix "E") eq_refl eq_refl)
    as (r & Hr & _ & _ & Hcap & _ & Hfive).
  exists r. split; [exact Hr|].
  split; [exact (proj1 (Hcap eq_refl))|].
  exact (Hfive eq_refl eq_refl).
Defined.




(** C9. On a file whose content is empty [show_file] fails, whatever the
    start line and the number of lines asked for, with the message that the
    start line is beyond the file length of 0 lines; so it does with the
    default arguments. *)
Theorem show_file_empty_file_fails
    (σ : fs) (p : string) (start_line : Z) (num_lines : option Z) :
  σ !! p = Some (File "") →
  show_file p start_line num_lines σ
  = (Returned
       {| Show.success := false;
          Show.error :=
            Some ("Start line " +:+ Py.str_of_int (Z.max 1 start_line)
                  +:+ " is beyond the file length (0 lines)");
          Show.content := ""; Show.lines_shown := 0; Show.total_lines := 0;
          Show.start_line := None; Show.end_line := None |},
     σ)
  ∧ show_file p 1 None σ
    = (Returned
         {| Show.success := false;
            Show.error := Some "Start line 1 is beyond the file length (0 lines)";
            Show.content := ""; Show.lines_shown := 0; Show.total_lines := 0;
            Show.start_line := None; Show.end_line := None |},
       σ).
Proof.
  intros Hp. rewrite !(show_file_found _ _ _ _ _ Hp). cbn zeta.
  change (Py.len (Py.splitlines (Py.universal_newlines ""))) with 0.
  split.
  - destruct (Z.ltb_spec 0 (Z.max 1 start_line)); [done|lia].
  - reflexivity.
Qed.

Lemma show_file_empty_file_fails_witness :
  (show_file "empty.txt" 1 None empty_file).1
  = Returned
      {| Show.success := false;
         Show.error := Some "Start line 1 is beyond the file length (0 lines)";
         Show.content := ""; Show.lines_shown := 0; Show.total_lines := 0;
         Show.start_line := None; Show.end_line := None |}.
Proof.
  exact (f_equal fst
           (proj2 (show_file_empty_file_fails empty_file "empty.txt" 1 None eq_refl))).
Defined.

(** C10. When the content read ends with a newline and every operation of
    a non-empty batch fails, [edit_file] still writes the lines joined by
    newlines, which is shorter than the content read (it is the content
    without its last newline when "\n" is its only line boundary), and
    reports success, [changed] true and one failure record per operation. *)
Theorem all_failed_batch_still_rewrites
    (σ : fs) (p raw t : string) (ops : list Op.t) (create : bool) :
  σ !! p = Some (File raw) →
  Py.universal_newlines raw = t +:+ Py.NL →
  ops ≠ [] →
  Forall (λ op, succeeded (apply_op (Str <$> Py.splitlines (t +:+ Py.NL)) op).2 = false)
         ops →
  let content := t +:+ Py.NL in
  let rewritten := Py.join Py.NL (Py.splitlines content) in
  ∃ r,
    edit_file p None (Some ops) create σ = (Returned r, <[p := File rewritten]> σ)
    ∧ Edit.success r = true
    ∧ Edit.changed r = Some true
    ∧ length (Edit.line_operations_performed r) = length ops
    ∧ Forall (λ x, succeeded x = false) (Edit.line_operations_performed r)
    ∧ rewritten ≠ content
    ∧ (String.length rewritten < String.length content)%nat
    ∧ (plain_newlines t = true → rewritten = t).
Proof.
  intros Hp Hread Hne Hfail content rewritten.
  set (lines := Str <$> Py.splitlines content).
  assert (Hrun : apply_line_operations lines ops
                 = (lines, (λ op, (apply_op lines op).2) <$> sorted_ops ops)).
  { unfold apply_line_operations. apply run_ops_all_fail.
    unfold sorted_ops. by rewrite sorted_perm. }
  assert (Hlen : (String.length rewritten < String.length content)%nat).
  { pose proof (join_splitlines_shorter t). subst rewritten content.
    rewrite string_length_app. simpl. lia. }
  eexists. rewrite (edit_file_found _ _ _ _ _ _ Hp).
  erewrite edit_existing_ok; [|exact Hp|].
  2:{ cbn [apply_replacements fst]. rewrite Hread.
      rewrite apply_line_edits_ok; [|done|].
      - fold content lines. rewrite Hrun. cbn [fst snd].
        unfold lines. rewrite <- list_fmap_compose, list_fmap_id. reflexivity.
      - fold content lines. rewrite Hrun. apply all_str_splitlines. }
  fold rewritten. split; [reflexivity|].
  cbn [Edit.success Edit.changed Edit.line_operations_performed].
  split_and!.
  - reflexivity.
  - rewrite Hread. fold content. by rewrite length_join_neq.
  - rewrite length_fmap. apply Permutation_length, sorted_perm.
  - apply Forall_fmap. unfold sorted_ops. rewrite sorted_perm.
    eapply Forall_impl; [exact Hfail|]. done.
  - intros Heq. rewrite Heq in Hlen. lia.
  - exact Hlen.
  - apply join_splitlines_plain.
Qed.

Lemma all_failed_batch_still_rewrites_witness :
  ∃ r,
    edit_file "f.txt" None (Some [Op.Replace 7 (Str "z"); Op.Delete 4 9]) false
      ends_with_newline
    = (Returned r, <["f.txt" := File ("a" +:+ Py.NL +:+ "b")]> ends_with_newline)
    ∧ Edit.success r = true
    ∧ Edit.changed r = Some true
    ∧ length (Edit.line_operations_performed r) = 2%nat
    ∧ Forall (λ x, succeeded x = false) (Edit.line_operations_performed r)
    ∧ "a" +:+ Py.NL +:+ "b" ≠ "a" +:+ Py.NL +:+ "b" +:+ Py.NL
    ∧ (3 < 4)%nat
    ∧ (true = true → "a" +:+ Py.NL +:+ "b" = "a" +:+ Py.NL +:+ "b").
Proof.
  apply (all_failed_batch_still_rewrites ends_with_newline "f.txt"
           ("a" +:+ Py.NL +:+ "b" +:+ Py.NL) ("a" +:+ Py.NL +:+ "b")
           [Op.Replace 7 (Str "z"); Op.Delete 4 9] false).
  - reflexivity.
  - reflexivity.
  - discriminate.
  - repeat constructor.
Defined.

(** * Further properties *)

Lemma slice_bound_in_range {A} (l : list A) (i : Z) :
  0 ≤ i ≤ Py.len l → Py.slice_bound l i = Z.to_nat i.
Proof.
  intros Hi. unfold Py.slice_bound.
  destruct (Z.ltb_spec i 0); [lia|]. f_equal. lia.
Qed.

Lemma slice_in_range {A} (l : list A) (a b : Z) :
  0 ≤ a → a ≤ b → b ≤ Py.len l →
  Py.slice l a b = take (Z.to_nat b - Z.to_nat a) (drop (Z.to_nat a) l).
Proof.
  intros Ha Hab Hb. unfold Py.slice.
  by rewrite !slice_bound_in_range by lia.
Qed.

Lemma del_slice_in_range {A} (l : list A) (a b : Z) :
  0 ≤ a → a ≤ b → b ≤ Py.len l →
  Py.del_slice l a b = take (Z.to_nat a) l ++ drop (Z.to_nat b) l.
Proof.
  intros Ha Hab Hb. unfold Py.del_slice.
  rewrite !slice_bound_in_range by lia. do 2 f_equal. lia.
Qed.

Lemma take_slice_drop {A} (l : list A) (a b : nat) :
  (a ≤ b)%nat →
  take a l ++ take (b - a) (drop a l) ++ drop b l = l.
Proof.
  intros Hab. rewrite <- (take_drop a l) at 4. f_equal.
  rewrite <- (take_drop (b - a) (drop a l)) at 2. f_equal.
  rewrite drop_drop. f_equal. lia.
Qed.

Lemma apply_op_delete_ok (lines : list item) (op : Op.t) :
  operation_type op = "delete" →
  start_index op < end_index lines op →
  let a := Z.to_nat (start_index op) in
  let b := Z.to_nat (end_index lines op) in
  let deleted := take (b - a) (drop a lines) in
  apply_op lines op
  = (take a lines ++ drop b lines,
     DeleteOk (default 0 (Op.start_line op))
       (default (default 0 (Op.start_line op)) (Op.end_line op))
       (end_index lines op - start_index op) deleted)
  ∧ Py.len deleted = end_index lines op - start_index op
  ∧ take a lines ++ deleted ++ drop b lines = lines
  ∧ Py.len (apply_op lines op).1
    = Py.len lines - (end_index lines op - start_index op).
Proof.
  intros Hop Hrange a b deleted.
  pose proof (len_nonneg lines) as Hlen.
  assert (Ha : 0 ≤ start_index op) by (unfold start_index; lia).
  assert (Hb : end_index lines op ≤ Py.len lines) by (unfold end_index; lia).
  assert (Hap : apply_op lines op
                = (take a lines ++ drop b lines,
                   DeleteOk (default 0 (Op.start_line op))
                     (default (default 0 (Op.start_line op)) (Op.end_line op))
                     (end_index lines op - start_index op) deleted)).
  { unfold apply_op. rewrite Hop. cbn [String.eqb Ascii.eqb Bool.eqb]. cbn iota.
    fold (start_index op) (end_index lines op).
    destruct (Z.ltb_spec (start_index op) (end_index lines op)); [|lia].
    rewrite del_slice_in_range, slice_in_range by lia. reflexivity. }
  assert (Hdel : length deleted = (b - a)%nat).
  { subst deleted. rewrite length_take, length_drop. unfold Py.len in *. lia. }
  split_and!.
  - exact Hap.
  - unfold Py.len. rewrite Hdel. lia.
  - apply take_slice_drop. lia.
  - rewrite Hap. cbn [fst]. unfold Py.len in *.
    rewrite length_app, length_take, length_drop. lia.
Qed.

(** X1. A delete whose clamped range is not empty (start index below end
    index) removes exactly the lines of that range: the lines before and
    after it stay, in order; the record holds the two line numbers as
    given, the number of lines removed and the removed lines; the array
    shrinks by that number. *)
Theorem delete_removes_exactly_its_range (lines : list item) (op : Op.t) :
  operation_type op = "delete" →
  start_index op < end_index lines op →
  let a := Z.to_nat (start_index op) in
  let b := Z.to_nat (end_index lines op) in
  let deleted := take (b - a) (drop a lines) in
  apply_op lines op
  = (take a lines ++ drop b lines,
     DeleteOk (default 0 (Op.start_line op))
       (default (default 0 (Op.start_line op)) (Op.end_line op))
       (end_index lines op - start_index op) deleted)
  ∧ Py.len deleted = end_index lines op - start_index op
  ∧ take a lines ++ deleted ++ drop b lines = lines
  ∧ Py.len (apply_op lines op).1
    = Py.len lines - (end_index lines op - start_index op).
Proof. exact (apply_op_delete_ok lines op). Qed.

Lemma delete_removes_exactly_its_range_witness :
  apply_op [Str "a"; Str "b"; Str "c"; Str "d"] (Op.Delete 2 9)
  = ([Str "a"], DeleteOk 2 9 3 [Str "b"; Str "c"; Str "d"]).
Proof.
  exact (proj1 (delete_removes_exactly_its_range
                  [Str "a"; Str "b"; Str "c"; Str "d"] (Op.Delete 2 9)
                  eq_refl eq_refl)).
Defined.

Lemma apply_op_replace_ok (lines : list item) (op : Op.t) :
  operation_type op = "replace" →
  1 ≤ default 0 (Op.line op) ≤ Py.len lines →
  apply_op lines op
  = (<[Z.to_nat (default 0 (Op.line op) - 1) := default (Str "") (Op.content op)]> lines,
     ReplaceOk (default 0 (Op.line op))
       (lines !!! Z.to_nat (default 0 (Op.line op) - 1))).
Proof.
  intros Hop Hrange. unfold apply_op. rewrite Hop.
  cbn [String.eqb Ascii.eqb Bool.eqb]. cbn iota.
  destruct (Z.leb_spec 0 (default 0 (Op.line op) - 1)); [|lia].
  destruct (Z.ltb_spec (default 0 (Op.line op) - 1) (Py.len lines)); [|lia].
  reflexivity.
Qed.

(** X2. A replace whose line is in range overwrites that one line, keeps
    every other line and the length, and records the line it overwrote;
    replacing the same line with the recorded old content gives the array
    back. *)
Theorem replace_overwrites_one_line (lines : list item) (op : Op.t) :
  operation_type op = "replace" →
  1 ≤ default 0 (Op.line op) ≤ Py.len lines →
  let n := default 0 (Op.line op) in
  let i := Z.to_nat (n - 1) in
  let new_content := default (Str "") (Op.content op) in
  ∃ old,
    lines !! i = Some old
    ∧ apply_op lines op = (<[i := new_content]> lines, ReplaceOk n old)
    ∧ (apply_op lines op).1 !! i = Some new_content
    ∧ (∀ j, j ≠ i → (apply_op lines op).1 !! j = lines !! j)
    ∧ length (apply_op lines op).1 = length lines
    ∧ apply_op (apply_op lines op).1 (Op.Replace n old)
      = (lines, ReplaceOk n new_content).
Proof.
  intros Hop Hrange n i new_content.
  assert (Hn : 1 ≤ n ≤ Py.len lines) by exact Hrange.
  assert (Hi : (i < length lines)%nat) by (unfold Py.len in *; lia).
  destruct (lookup_lt_is_Some_2 lines i Hi) as [old Hold].
  exists old. rewrite (apply_op_replace_ok lines op Hop Hrange).
  fold n i new_content. cbn [fst].
  rewrite (list_lookup_total_correct _ _ _ Hold). split_and!.
  - exact Hold.
  - reflexivity.
  - by apply list_lookup_insert_eq.
  - intros j Hj. by apply list_lookup_insert_ne.
  - apply length_insert.
  - rewrite (apply_op_replace_ok _ (Op.Replace n old) eq_refl)
      by (simpl; unfold Py.len in *; rewrite length_insert; lia).
    simpl. fold i.
    rewrite list_insert_insert_eq, (list_insert_id _ _ _ Hold).
    by rewrite list_lookup_total_insert_eq.
Qed.

Lemma replace_overwrites_one_line_witness :
  ∃ old,
    [Str "a"; Str "b"] !! 1%nat = Some old
    ∧ apply_op [Str "a"; Str "b"] (Op.Replace 2 (Str "z"))
      = ([Str "a"; Str "z"], ReplaceOk 2 old)
    ∧ [Str "a"; Str "z"] !! 1%nat = Some (Str "z")
    ∧ (∀ j, j ≠ 1%nat → [Str "a"; Str "z"] !! j = [Str "a"; Str "b"] !! j)
    ∧ length [Str "a"; Str "z"] = 2%nat
    ∧ apply_op [Str "a"; Str "z"] (Op.Replace 2 old)
      = ([Str "a"; Str "b"], ReplaceOk 2 (Str "z")).
Proof.
  apply (replace_overwrites_one_line [Str "a"; Str "b"] (Op.Replace 2 (Str "z"))).
  - reflexivity.
  - vm_compute. split; discriminate.
Defined.

(** X3. Round trip: after a successful delete on an array of strings,
    inserting the recorded deleted lines, as a list, at the first deleted
    line gives the array back. *)
Theorem delete_then_insert_restores (lines : list item) (op : Op.t) :
  operation_type op = "delete" →
  start_index op < end_index lines op →
  Forall (λ it, is_str it = true) lines →
  let a := Z.to_nat (start_index op) in
  let b := Z.to_nat (end_index lines op) in
  let deleted := take (b - a) (drop a lines) in
  apply_op (apply_op lines op).1
    (Op.Insert (start_index op + 1) (Lst (item_text <$> deleted)))
  = (lines, InsertOk (start_index op + 1))
  ∧ (1 ≤ default 0 (Op.start_line op) →
     start_index op + 1 = default 0 (Op.start_line op)).
Proof.
  intros Hop Hrange Hstr a b deleted.
  destruct (apply_op_delete_ok lines op Hop Hrange)
    as (Hap & Hlen & Hsplit & _).
  fold a b deleted in Hap, Hsplit.
  pose proof (len_nonneg lines) as Hlines.
  assert (Ha : 0 ≤ start_index op) by (unfold start_index; lia).
  assert (Hb : end_index lines op ≤ Py.len lines) by (unfold end_index; lia).
  split; [|unfold start_index; lia].
  rewrite Hap. cbn [fst].
  rewrite (apply_op_insert _ (Op.Insert (start_index op + 1) _) eq_refl).
  unfold insert_index, inserted_lines. simpl.
  replace (start_index op + 1 - 1) with (start_index op) by lia.
  assert (Hla : length (take a lines) = a).
  { rewrite length_take. unfold Py.len in *. lia. }
  replace (Z.to_nat ((0 `max` start_index op) `min` Py.len (take a lines ++ drop b lines)))
    with a.
  2:{ unfold Py.len in *. rewrite length_app, Hla. lia. }
  rewrite take_app_length' by done. rewrite drop_app_length' by done.
  f_equal. etransitivity; [|exact Hsplit]. do 2 f_equal.
  rewrite <- list_fmap_compose.
  assert (Hd : Forall (λ it, is_str it = true) deleted)
    by (subst deleted; by apply Forall_take, Forall_drop).
  clear - Hd. induction Hd as [|[s|l] d Hs _ IH]; [done| |done].
  cbn [fmap list_fmap]. simpl. f_equal. exact IH.
Qed.

Lemma delete_then_insert_restores_witness :
  apply_op (apply_op [Str "a"; Str "b"; Str "c"; Str "d"] (Op.Delete 2 3)).1
    (Op.Insert 2 (Lst ["b"; "c"]))
  = ([Str "a"; Str "b"; Str "c"; Str "d"], InsertOk 2).
Proof.
  apply (proj1 (delete_then_insert_restores
                  [Str "a"; Str "b"; Str "c"; Str "d"] (Op.Delete 2 3)
                  eq_refl eq_refl ltac:(repeat constructor))).
Defined.

(** X4. Round trip: after an insert of at least one line, deleting the
    range the lines went to gives the array back, and the delete records
    the inserted lines. *)
Theorem insert_then_delete_restores (lines : list item) (op : Op.t) :
  operation_type op = "insert" →
  inserted_lines op ≠ [] →
  let idx := insert_index lines op in
  let k := Py.len (inserted_lines op) in
  apply_op (apply_op lines op).1 (Op.Delete (idx + 1) (idx + k))
  = (lines, DeleteOk (idx + 1) (idx + k) k (inserted_lines op))
  ∧ (1 ≤ default 0 (Op.line op) ≤ Py.len lines + 1 →
     idx + 1 = default 0 (Op.line op)).
Proof.
  intros Hop Hne idx k.
  pose proof (len_nonneg lines) as Hlines.
  assert (Hidx : 0 ≤ idx ≤ Py.len lines) by (subst idx; unfold insert_index; lia).
  assert (Hk : 1 ≤ k).
  { subst k. unfold Py.len. destruct (inserted_lines op); [done|]. simpl. lia. }
  split; [|subst idx; unfold insert_index; lia].
  rewrite (apply_op_insert lines op Hop). fold idx. cbn [fst].
  set (pre := take (Z.to_nat idx) lines).
  set (post := drop (Z.to_nat idx) lines).
  assert (Hpre : length pre = Z.to_nat idx).
  { subst pre. rewrite length_take. unfold Py.len in *. lia. }
  assert (Hlen : Py.len (pre ++ inserted_lines op ++ post) = Py.len lines + k).
  { subst k. unfold Py.len in *. rewrite !length_app, Hpre.
    subst post. rewrite length_drop. lia. }
  destruct (apply_op_delete_ok (pre ++ inserted_lines op ++ post)
              (Op.Delete (idx + 1) (idx + k)) eq_refl) as (Hap & _).
  { unfold start_index, end_index. simpl. lia. }
  rewrite Hap. unfold start_index, end_index. simpl.
  replace (Z.to_nat (0 `max` (idx + 1 - 1))) with (length pre) by lia.
  replace (Z.to_nat (Py.len (pre ++ inserted_lines op ++ post) `min` (idx + k)))
    with (length pre + length (inserted_lines op))%nat
    by (unfold Py.len in *; lia).
  replace (Py.len (pre ++ inserted_lines op ++ post) `min` (idx + k)
           - 0 `max` (idx + 1 - 1)) with k by lia.
  rewrite take_app_length, drop_app_length.
  replace (length pre + length (inserted_lines op) - length pre)%nat
    with (length (inserted_lines op)) by lia.
  rewrite take_app_length.
  rewrite (app_assoc pre), drop_app_length'
    by (rewrite length_app; lia).
  subst pre post. by rewrite take_drop.
Qed.

Lemma insert_then_delete_restores_witness :
  apply_op (apply_op [Str "a"; Str "b"] (Op.Insert 2 (Lst ["x"; "y"]))).1
    (Op.Delete 2 3)
  = ([Str "a"; Str "b"], DeleteOk 2 3 2 [Str "x"; Str "y"]).
Proof.
  apply (proj1 (insert_then_delete_restores [Str "a"; Str "b"]
                  (Op.Insert 2 (Lst ["x"; "y"])) eq_refl ltac:(discriminate))).
Defined.

Lemma delete_keeps_prefix op :
  operation_type op = "delete" → Op.line op = None → keeps_prefix op.
Proof.
  intros Hop Hline lines k Hk Hlen.
  unfold target_line in Hk. rewrite Hline in Hk.
  destruct (Z.lt_ge_cases (start_index op) (end_index lines op)) as [Hlt|Hge].
  - destruct (apply_op_delete_ok lines op Hop Hlt) as (-> & _).
    cbn [fst]. unfold start_index, end_index, Py.len in *.
    rewrite take_app_le; [by rewrite take_take, Nat.min_l by lia|].
    rewrite length_take. lia.
  - rewrite apply_op_delete_fail; [done|done|].
    unfold start_index, end_index in Hge. lia.
Qed.

Lemma as_dict_keeps_prefix o : keeps_prefix (as_dict o).
Proof.
  destruct o as [l c|l s|s e|s|kind]; cbn [as_dict].
  - intros lines k Hk Hlen.
    rewrite (apply_op_insert lines (Op.Insert l c) eq_refl). cbn [fst].
    assert (Hidx : (k ≤ Z.to_nat (insert_index lines (Op.Insert l c)))%nat).
    { unfold insert_index, target_line in *. cbn [Op.Insert Op.line default] in *.
      unfold Py.len, id. lia. }
    rewrite take_app_le; [by rewrite take_take, Nat.min_l by lia|].
    rewrite length_take. lia.
  - intros lines k Hk Hlen.
    unfold target_line in Hk. cbn [Op.Replace Op.line] in Hk.
    destruct (decide (1 ≤ l ≤ Py.len lines)) as [Hin|Hout].
    + rewrite (apply_op_replace_ok lines (Op.Replace l (Str s)) eq_refl Hin).
      cbn [fst Op.Replace Op.line default]. unfold id.
      apply take_insert_ge. lia.
    + by rewrite (apply_op_replace_fail lines (Op.Replace l (Str s)) eq_refl Hout).
  - by apply delete_keeps_prefix.
  - by apply delete_keeps_prefix.
  - intros lines k Hk Hlen. unfold target_line in Hk. simpl in Hk.
    assert (k = 0%nat) as -> by lia. done.
Qed.

Lemma run_ops_keeps_prefix ops lines (t : Z) (k : nat) :
  Forall (λ op, keeps_prefix op ∧ t ≤ target_line op) ops →
  Z.of_nat k ≤ t - 1 → (k ≤ length lines)%nat →
  take k (run_ops ops lines []).1 = take k lines.
Proof.
  intros Hops Hk. revert lines.
  induction Hops as [|op ops [Hop Ht] _ IH]; intros lines Hlen; [done|].
  rewrite run_ops_cons. cbn [fst].
  assert (Hstep : take k (apply_op lines op).1 = take k lines)
    by (apply Hop; lia).
  rewrite IH; [done|].
  apply (f_equal length) in Hstep. rewrite !length_take in Hstep. lia.
Qed.

(** X5. A batch leaves alone every line that comes before all of its
    target lines: when each operation targets line [t] or a later one, the
    lines before [t - 1] are what they were. *)
Theorem lines_before_every_target_are_kept
    (lines : list item) (batch : list line_operation) (t : Z) (i : nat) :
  Forall (λ o, t ≤ target_line (as_dict o)) batch →
  Z.of_nat i < t - 1 →
  (i < length lines)%nat →
  (apply_line_operations lines (as_dict <$> batch)).1 !! i = lines !! i.
Proof.
  intros Hbatch Hi Hlen.
  assert (Htake : take (S i) (apply_line_operations lines (as_dict <$> batch)).1
                  = take (S i) lines).
  { unfold apply_line_operations. apply (run_ops_keeps_prefix _ _ t); [|lia|lia].
    unfold sorted_ops. rewrite sorted_perm. apply Forall_fmap.
    eapply Forall_impl; [exact Hbatch|]. intros o Ho. split; [|done].
    apply as_dict_keeps_prefix. }
  rewrite <- (lookup_take_lt _ (S i)) by lia.
  rewrite Htake. apply lookup_take_lt. lia.
Qed.

Lemma lines_before_every_target_are_kept_witness :
  (apply_line_operations [Str "a"; Str "b"; Str "c"; Str "d"]
     (as_dict <$> [DeleteAt 3; InsertAt 4 (Str "x"); ReplaceAt 3 "y"])).1 !! 1%nat
  = [Str "a"; Str "b"; Str "c"; Str "d"] !! 1%nat.
Proof.
  apply (lines_before_every_target_are_kept _ _ 3).
  - repeat constructor; vm_compute; discriminate.
  - lia.
  - simpl. lia.
Defined.

Lemma sorted_insert_fmap {A B} (key : B → Z) (f : A → B) x l :
  Py.sorted_insert key (f x) (f <$> l) = f <$> Py.sorted_insert (λ a, key (f a)) x l.
Proof.
  induction l as [|y l IH]; [done|].
  rewrite fmap_cons. cbn [Py.sorted_insert].
  destruct (key (f x) <=? key (f y)); [done|]. by rewrite IH.
Qed.

Lemma sorted_fmap {A B} (key : B → Z) (f : A → B) l :
  Py.sorted key (f <$> l) = f <$> Py.sorted (λ a, key (f a)) l.
Proof.
  induction l as [|x l IH]; [done|].
  rewrite fmap_cons. cbn [Py.sorted]. by rewrite IH, sorted_insert_fmap.
Qed.

Lemma drop_numbered_all_below ts n lines :
  Forall (λ t, t < n) ts → drop_numbered ts n lines = lines.
Proof.
  revert n. induction lines as [|x rest IH]; intros n Hts; [done|].
  cbn [drop_numbered]. rewrite bool_decide_false.
  - f_equal. apply IH. eapply Forall_impl; [exact Hts|]. intros; simpl in *; lia.
  - intros Hin. rewrite Forall_forall in Hts. apply Hts in Hin. lia.
Qed.

Lemma drop_numbered_ext ts ts' n lines :
  (∀ t, t ∈ ts ↔ t ∈ ts') → drop_numbered ts n lines = drop_numbered ts' n lines.
Proof.
  intros Hext. revert n. induction lines as [|x rest IH]; intros n; [done|].
  cbn [drop_numbered]. rewrite (bool_decide_ext _ _ (Hext n)).
  by rewrite !IH.
Qed.

Lemma drop_numbered_delete ts d n lines :
  n ≤ d → Forall (λ t, t < d) ts →
  drop_numbered ts n
    (take (Z.to_nat (d - n)) lines ++ drop (S (Z.to_nat (d - n))) lines)
  = drop_numbered (d :: ts) n lines.
Proof.
  intros Hnd Hts. revert n Hnd.
  induction lines as [|x rest IH]; intros n Hnd;
    [by rewrite take_nil, drop_nil|].
  destruct (decide (d = n)) as [->|Hne].
  - rewrite Z.sub_diag. cbn [Z.to_nat take drop app drop_numbered].
    rewrite bool_decide_true by apply list_elem_of_here.
    rewrite (drop_numbered_all_below ts n) by done.
    rewrite (drop_numbered_all_below (n :: ts) (n + 1)); [done|].
    constructor; [lia|]. eapply Forall_impl; [exact Hts|]. intros; simpl in *; lia.
  - replace (Z.to_nat (d - n)) with (S (Z.to_nat (d - (n + 1)))) by lia.
    cbn [take drop app drop_numbered].
    rewrite IH by lia.
    rewrite (bool_decide_ext (n ∈ d :: ts) (n ∈ ts))
      by (rewrite elem_of_cons; intuition congruence).
    done.
Qed.

Lemma drop_numbered_never ts d n lines :
  d < n → drop_numbered (d :: ts) n lines = drop_numbered ts n lines.
Proof.
  revert n. induction lines as [|x rest IH]; intros n Hd; [done|].
  cbn [drop_numbered].
  rewrite (bool_decide_ext (n ∈ d :: ts) (n ∈ ts))
    by (rewrite elem_of_cons; intuition lia).
  by rewrite !IH by lia.
Qed.

Lemma apply_op_delete_line lines d :
  (apply_op lines (Op.DeleteLine d)).1
  = if decide (1 ≤ d)
    then take (Z.to_nat (d - 1)) lines ++ drop (S (Z.to_nat (d - 1))) lines
    else lines.
Proof.
  pose proof (len_nonneg lines) as Hlen.
  destruct (decide (1 ≤ d ≤ Py.len lines)) as [Hin|Hout].
  - destruct (apply_op_delete_ok lines (Op.DeleteLine d) eq_refl)
      as (-> & _).
    { unfold start_index, end_index. simpl. lia. }
    unfold start_index, end_index. cbn [fst Op.DeleteLine Op.start_line Op.end_line default].
    unfold id. rewrite decide_True by lia.
    replace (Z.to_nat (0 `max` (d - 1))) with (Z.to_nat (d - 1)) by lia.
    replace (Z.to_nat (Py.len lines `min` d)) with (S (Z.to_nat (d - 1))) by lia.
    done.
  - rewrite apply_op_delete_fail; [|done|simpl; lia]. cbn [fst].
    case_decide; [|done].
    rewrite take_ge, drop_ge by (unfold Py.len in *; lia). by rewrite app_nil_r.
Qed.

Lemma run_deletes_descending ds lines :
  StronglySorted (λ a b, b < a) ds →
  (run_ops (as_dict <$> (DeleteAt <$> ds)) lines []).1 = drop_numbered ds 1 lines.
Proof.
  intros Hds. revert lines.
  induction Hds as [|d ds _ IH Hd]; intros lines.
  - simpl. by rewrite drop_numbered_all_below.
  - cbn [fmap list_fmap]. rewrite run_ops_cons. cbn [fst as_dict].
    fold (fmap DeleteAt ds). fold (fmap as_dict (DeleteAt <$> ds)).
    rewrite IH, apply_op_delete_line. case_decide.
    + replace (d - 1) with (d - 1) by done.
      by rewrite (drop_numbered_delete ds d 1) by (lia || done).
    + by rewrite drop_numbered_never by lia.
Qed.

Lemma descending_strict (l : list Z) :
  StronglySorted (key_le (λ t, - t)) l → NoDup l → StronglySorted (λ a b, b < a) l.
Proof.
  induction 1 as [|x l _ IH Hx]; intros Hnd; [constructor|].
  apply NoDup_cons in Hnd as [Hnotin Hnd]. constructor; [by apply IH|].
  rewrite Forall_forall in Hx |- *. intros y Hy.
  specialize (Hx y Hy). unfold key_le in Hx.
  assert (y ≠ x) by (intros ->; done). lia.
Qed.

(** X6. A batch of single-line deletes at distinct line numbers, given in
    any order, removes exactly the lines that had these numbers in the
    original array; numbers outside the array remove nothing. *)
Theorem deleting_distinct_lines_removes_those_lines
    (lines : list item) (ts : list Z) :
  NoDup ts →
  (apply_line_operations lines (as_dict <$> (DeleteAt <$> ts))).1
  = drop_numbered ts 1 lines.
Proof.
  intros Hnd. unfold apply_line_operations, sorted_ops.
  rewrite <- list_fmap_compose, sorted_fmap.
  set (ds := Py.sorted (λ t, sort_key ((as_dict ∘ DeleteAt) t)) ts).
  assert (Hperm : ds ≡ₚ ts) by apply sorted_perm.
  rewrite list_fmap_compose, run_deletes_descending.
  - apply drop_numbered_ext. intros t. by rewrite Hperm.
  - apply descending_strict; [|by rewrite Hperm].
    eapply StronglySorted_weaken;
      [|apply (sorted_sorted (λ t, sort_key ((as_dict ∘ DeleteAt) t)))].
    unfold key_le, sort_key, target_line. simpl. intros; lia.
Qed.

Lemma deleting_distinct_lines_witness :
  (apply_line_operations [Str "a"; Str "b"; Str "c"; Str "d"; Str "e"]
     (as_dict <$> (DeleteAt <$> [2; 9; 4; 1]))).1
  = [Str "c"; Str "e"].
Proof.
  apply (deleting_distinct_lines_removes_those_lines
           [Str "a"; Str "b"; Str "c"; Str "d"; Str "e"] [2; 9; 4; 1]).
  apply (bool_decide_unpack _). vm_compute. exact I.
Defined.




(** X8. With no replacements and no line operations [edit_file] still
    rewrites the file, with the text as read: "\r\n" and "\r" become
    "\n".  It reports [changed] false and equal sizes, although the file on
    disk differs whenever the raw text had a carriage return. *)
Theorem edit_file_with_nothing_to_do
    (p raw : string) repl lops (create : bool) (σ : fs) :
  σ !! p = Some (File raw) →
  falsy repl → falsy lops →
  let content := Py.universal_newlines raw in
  edit_file p repl lops create σ
  = (Returned
       {| Edit.success := true; Edit.error := None;
          Edit.original_size := Some (Z.of_nat (String.length content));
          Edit.new_size := Some (Z.of_nat (String.length content));
          Edit.changed := Some false;
          Edit.replacements_made := ∅;
          Edit.line_operations_performed := [] |},
     <[p := File content]> σ)
  ∧ (content = raw → <[p := File content]> σ = σ)
  ∧ (content ≠ raw → <[p := File content]> σ ≠ σ).
Proof.
  intros Hp Hrepl Hlops content. split_and!.
  - rewrite (edit_file_found _ _ _ _ _ _ Hp).
    rewrite (edit_existing_ok p raw repl lops σ content []); [| done |].
    + fold content.
      replace (apply_replacements repl content) with (content, ∅ : gmap string nat)
        by (by destruct Hrepl as [-> | ->]).
      by rewrite String.eqb_refl.
    + fold content.
      replace (apply_replacements repl content) with (content, ∅ : gmap string nat)
        by (by destruct Hrepl as [-> | ->]).
      by destruct Hlops as [-> | ->].
  - intros ->. by apply insert_id.
  - intros Hne Heq. apply (f_equal (λ m : fs, m !! p)) in Heq.
    rewrite lookup_insert_eq, Hp in Heq. congruence.
Qed.

Lemma edit_file_with_nothing_to_do_witness :
  edit_file "dos.txt" None None false crlf_file
  = (Returned
       {| Edit.success := true; Edit.error := None;
          Edit.original_size := Some 3; Edit.new_size := Some 3;
          Edit.changed := Some false;
          Edit.replacements_made := ∅;
          Edit.line_operations_performed := [] |},
     <["dos.txt" := File ("a" +:+ Py.NL +:+ "b")]> crlf_file).
Proof.
  exact (proj1 (edit_file_with_nothing_to_do "dos.txt"
                  ("a" +:+ String Py.CR (String Py.LF "b")) None None false
                  crlf_file eq_refl (or_introl eq_refl) (or_introl eq_refl))).
Defined.







(** X20. [execute_shell_command] always returns a result: with the joined
    command, with [success] true exactly when [exit_code] is 0, with the
    process's code and streams when the launcher returns, and with exit
    code -1, an empty stdout and the timeout or error message when it
    raises.  The state is what the launcher left. *)
Theorem execute_shell_command_result_shape
    (run : list string → option Z → option string → io completed_process)
    (command : list string) (timeout : Z) (working_dir : option string) (σ : fs) :
  ∃ r,
    execute_shell_command run command timeout working_dir σ
    = (Returned r, (run command (Some timeout) working_dir σ).2)
    ∧ Shell.command r = Py.join " " command
    ∧ (Shell.success r = true ↔ Shell.exit_code r = 0)
    ∧ (∀ p, (run command (Some timeout) working_dir σ).1 = Returned p →
         Shell.exit_code r = returncode p
         ∧ Shell.stdout r = proc_stdout p ∧ Shell.stderr r = proc_stderr p)
    ∧ (∀ e, (run command (Some timeout) working_dir σ).1 = Raised e →
         Shell.exit_code r = -1 ∧ Shell.stdout r = ""
         ∧ (exn_class_of e = TimeoutExpired →
            Shell.stderr r
            = "Command timed out after " +:+ Py.str_of_int timeout +:+ " seconds")
         ∧ (exn_class_of e ≠ TimeoutExpired →
            Shell.stderr r = "Error executing command: " +:+ exn_str e)).
Proof.
  unfold execute_shell_command, try_except, bind.
  destruct (run command (Some timeout) working_dir σ) as [[p|e] σ'].
  - unfold ret. eexists. split; [reflexivity|].
    cbn [Shell.command Shell.success Shell.exit_code Shell.stdout Shell.stderr fst].
    split_and!; [done|apply Z.eqb_eq| |discriminate].
    intros ? [= <-]. done.
  - destruct e as [c msg]. cbn [exn_class_of exn_str fst snd].
    destruct c; unfold ret; (eexists; split; [reflexivity|]);
      cbn [Shell.command Shell.success Shell.exit_code Shell.stdout Shell.stderr];
      (split_and!; [done|split; [discriminate|lia]|discriminate|]);
      intros ? [= <-]; cbn [exn_class_of exn_str];
      (split_and!; [done|done|done|done]).
Qed.

(** X21. Whatever the browser process and the converter do (return,
    raise, write files), no regular file is left at the temporary path when
    [fetch_page] is over. *)
Theorem fetch_page_removes_its_temporary_file
    (named_temporary_file : io string)
    (run : list string → option Z → option string → io completed_process)
    (pdf_to_text : string → io string)
    (url t : string) (σ σ1 : fs) :
  named_temporary_file σ = (Returned t, σ1) →
  is_file (fetch_page named_temporary_file run pdf_to_text url σ).2 t = false.
Proof.
  intros Htmp. unfold fetch_page. unfold bind at 1. rewrite Htmp.
  unfold try_finally.
  match goal with |- context [let (_, _) := ?b σ1 in _] => destruct (b σ1) as [r σ2] end.
  unfold try_except, unlink, ret, is_file.
  destruct (σ2 !! t) as [[old|]|] eqn:Ht; cbn [snd].
  - rewrite lookup_delete_eq. done.
  - rewrite Ht. done.
  - rewrite Ht. done.
Qed.

Lemma fetch_page_removes_its_temporary_file_witness :
  is_file
    (fetch_page temp_pdf (λ _ _ _, ret (Completed 0 "" ""))
       (λ _, raise conversion_failed) "http://example.org" ∅).2
    "/tmp/page0.pdf"
  = false.
Proof.
  apply (fetch_page_removes_its_temporary_file temp_pdf
           (λ _ _ _, ret (Completed 0 "" "")) (λ _, raise conversion_failed)
           "http://example.org" "/tmp/page0.pdf" ∅
           (<["/tmp/page0.pdf" := File ""]> ∅)).
  reflexivity.
Defined.




(** X17. [show_file] and [search_in_file] never change the file system,
    whatever they return. *)
Theorem show_and_search_only_read
    (re_compile : string → bool → outcome (string → bool))
    (p pattern : string) (start_line : Z) (num_lines : option Z)
    (cs : bool) (max_matches : Z) (σ : fs) :
  (show_file p start_line num_lines σ).2 = σ
  ∧ (search_in_file re_compile p pattern cs max_matches σ).2 = σ.
Proof.
  split.
  - unfold show_file, bind, path_exists, try_except, read_text, ret.
    destruct (bool_decide _); cbn [negb]; [|done].
    destruct (σ !! p) as [[raw|]|]; try done.
    by destruct (_ <? _).
  - unfold search_in_file, bind, path_exists, try_except, read_text, ret.
    destruct (bool_decide _); cbn [negb]; [|done].
    destruct (re_compile pattern (negb cs)) as [regex|[c msg]].
    + by destruct (σ !! p) as [[raw|]|].
    + by destruct c.
Qed.

Lemma take_min_length {A} (n : nat) (l : list A) :
  take (n `min` length l) l = take n l.
Proof.
  destruct (Nat.le_ge_cases n (length l)).
  - by rewrite Nat.min_l.
  - rewrite Nat.min_r by done. by rewrite !take_ge by lia.
Qed.

Lemma slice_window {A} (l : list A) (a n : Z) :
  0 ≤ a ≤ Py.len l → 0 ≤ n →
  Py.slice l a (Z.min (a + n) (Py.len l)) = take (Z.to_nat n) (drop (Z.to_nat a) l)
  ∧ Py.len (Py.slice l a (Z.min (a + n) (Py.len l))) = Z.min n (Py.len l - a).
Proof.
  intros Ha Hn.
  assert (Hs : Py.slice l a (Z.min (a + n) (Py.len l))
               = take (Z.to_nat n) (drop (Z.to_nat a) l)).
  { rewrite slice_in_range by lia.
    rewrite <- (take_min_length (Z.to_nat n)). f_equal.
    rewrite length_drop. unfold Py.len in *. lia. }
  split; [done|]. rewrite Hs. unfold Py.len in *.
  rewrite length_take, length_drop. lia.
Qed.

(** X15. On a file whose effective start line [max 1 start_line] is within
    the file, [show_file] with a count [n >= 0] shows the [n] lines from the
    start line on, or those that are left; [lines_shown] and [end_line] are
    clamped to the file; and no count is the same as a count of the whole
    file. *)
Theorem show_file_window
    (σ : fs) (p raw : string) (start_line n : Z) :
  σ !! p = Some (File raw) →
  let lines := Py.splitlines (Py.universal_newlines raw) in
  let s := Z.max 1 start_line in
  s ≤ Py.len lines → 0 ≤ n →
  ∃ r,
    show_file p start_line (Some n) σ = (Returned r, σ)
    ∧ Show.success r = true
    ∧ Show.content r
      = Py.join Py.NL (take (Z.to_nat n) (drop (Z.to_nat (s - 1)) lines))
    ∧ Show.lines_shown r = Z.min n (Py.len lines - (s - 1))
    ∧ Show.total_lines r = Py.len lines
    ∧ Show.start_line r = Some s
    ∧ Show.end_line r = Some (Z.min (s - 1 + n) (Py.len lines))
    ∧ show_file p start_line None σ
      = show_file p start_line (Some (Py.len lines)) σ.
Proof.
  intros Hp lines s Hs Hn.
  destruct (slice_window lines (s - 1) n) as [Hsl Hlen]; [lia|lia|].
  destruct (slice_window lines (s - 1) (Py.len lines)) as [Hall _]; [lia|lia|].
  rewrite !(show_file_found _ _ _ _ _ Hp). cbv zeta. fold lines. fold s.
  destruct (Z.ltb_spec (Py.len lines) s); [lia|].
  eexists. split; [reflexivity|].
  cbn [Show.success Show.content Show.lines_shown Show.total_lines
       Show.start_line Show.end_line].
  rewrite Hsl.
  assert (Hlen' : Py.len (take (Z.to_nat n) (drop (Z.to_nat (s - 1)) lines))
                  = Z.min n (Py.len lines - (s - 1))) by (by rewrite <- Hsl).
  rewrite Hlen'.
  split_and!; try done.
  - f_equal. lia.
  - rewrite Hall.
    replace (Py.slice lines (s - 1) (Py.len lines))
      with (take (Z.to_nat (Py.len lines)) (drop (Z.to_nat (s - 1)) lines)); [done|].
    rewrite slice_in_range by lia.
    rewrite <- (take_min_length (Z.to_nat (Py.len lines))),
            <- (take_min_length (Z.to_nat (Py.len lines) - Z.to_nat (s - 1))).
    f_equal. rewrite length_drop. unfold Py.len. lia.
Qed.

Lemma show_file_window_witness :
  ∃ r,
    show_file "f.txt" 2 (Some 1) abc = (Returned r, abc)
    ∧ Show.success r = true
    ∧ Show.content r = "b"
    ∧ Show.lines_shown r = 1
    ∧ Show.total_lines r = 3
    ∧ Show.start_line r = Some 2
    ∧ Show.end_line r = Some 2
    ∧ show_file "f.txt" 2 None abc = show_file "f.txt" 2 (Some 3) abc.
Proof.
  apply (show_file_window abc "f.txt" ("a" +:+ Py.NL +:+ "b" +:+ Py.NL +:+ "c") 2 1).
  - reflexivity.
  - vm_compute. discriminate.
  - lia.
Defined.

(** X16. A negative [num_lines] is not rejected: [show_file] succeeds.
    When the start index plus the count is not negative nothing is shown and
    [end_line] is the line before [start_line]; from line 1, the count is
    taken from the end of the file: all but the last [-n] lines are
    shown. *)
Theorem show_file_negative_count
    (σ : fs) (p raw : string) (start_line n : Z) :
  σ !! p = Some (File raw) →
  let lines := Py.splitlines (Py.universal_newlines raw) in
  let s := Z.max 1 start_line in
  s ≤ Py.len lines → n < 0 →
  ∃ r,
    show_file p start_line (Some n) σ = (Returned r, σ)
    ∧ Show.success r = true
    ∧ Show.start_line r = Some s
    ∧ (0 ≤ s - 1 + n →
       Show.content r = "" ∧ Show.lines_shown r = 0
       ∧ Show.end_line r = Some (s - 1))
    ∧ (s = 1 →
       Show.content r
       = Py.join Py.NL (take (Z.to_nat (Py.len lines + n)) lines)
       ∧ Show.lines_shown r = Z.max 0 (Py.len lines + n)).
Proof.
  intros Hp lines s Hs Hn.
  rewrite (show_file_found _ _ _ _ _ Hp). cbv zeta. fold lines. fold s.
  destruct (Z.ltb_spec (Py.len lines) s); [lia|].
  eexists. split; [reflexivity|].
  cbn [Show.success Show.content Show.lines_shown Show.total_lines
       Show.start_line Show.end_line].
  rewrite (Z.min_l (s - 1 + n)) by lia.
  split_and!; try done.
  - intros Hnonneg.
    assert (Hsl : Py.slice lines (s - 1) (s - 1 + n) = []).
    { unfold Py.slice. rewrite !slice_bound_in_range by lia.
      replace (Z.to_nat (s - 1 + n) - Z.to_nat (s - 1))%nat with 0%nat by lia.
      done. }
    rewrite Hsl. split_and!; [done|done|]. f_equal. unfold Py.len. simpl. lia.
  - intros Hone. rewrite Hone. change (1 - 1) with 0. rewrite Z.add_0_l.
    assert (Hsl : Py.slice lines 0 n = take (Z.to_nat (Py.len lines + n)) lines).
    { unfold Py.slice. rewrite (slice_bound_in_range lines 0) by lia.
      unfold Py.slice_bound. destruct (Z.ltb_spec n 0); [|lia].
      rewrite drop_0. f_equal. lia. }
    rewrite Hsl. split; [done|]. unfold Py.len. rewrite length_take. lia.
Qed.

Lemma show_file_negative_count_witness :
  ∃ r,
    show_file "f.txt" 1 (Some (-1)) abc = (Returned r, abc)
    ∧ Show.success r = true
    ∧ Show.start_line r = Some 1
    ∧ (0 ≤ 1 - 1 + -1 →
       Show.content r = "" ∧ Show.lines_shown r = 0
       ∧ Show.end_line r = Some (1 - 1))
    ∧ (1 = 1 →
       Show.content r = "a" +:+ Py.NL +:+ "b" ∧ Show.lines_shown r = 2).
Proof.
  apply (show_file_negative_count abc "f.txt"
           ("a" +:+ Py.NL +:+ "b" +:+ Py.NL +:+ "c") 1 (-1)).
  - reflexivity.
  - vm_compute. discriminate.
  - lia.
Defined.

(** *** search_in_file: what the matches are *)

Lemma elem_of_hits_of search n lines h :
  h ∈ hits_of search (enumerate n lines)
  ↔ ∃ (i : nat) line,
      lines !! i = Some line ∧ search line = true
      ∧ h = Search.Hit (n + Z.of_nat i) (Py.rstrip_nl line).
Proof.
  revert n. induction lines as [|x lines IH]; intros n.
  - unfold hits_of. simpl. split; [by intros ?%elem_of_nil|].
    by intros (i & line & ? & _).
  - unfold hits_of in *. cbn [enumerate]. rewrite filter_cons. cbn [snd].
    destruct (decide (search x = true)) as [Hx|Hx].
    + rewrite fmap_cons, elem_of_cons, IH. cbn [fst snd]. split.
      * intros [-> | (i & line & Hi & Hl & ->)].
        -- exists 0%nat, x. split_and!; [done|done|]. f_equal. lia.
        -- exists (S i), line. split_and!; [done|done|]. f_equal. lia.
      * intros ([|i] & line & Hi & Hl & ->).
        -- left. injection Hi as ->. f_equal. lia.
        -- right. exists i, line. split_and!; [done|done|]. f_equal. lia.
    + rewrite IH. split.
      * intros (i & line & Hi & Hl & ->).
        exists (S i), line. split_and!; [done|done|]. f_equal. lia.
      * intros ([|i] & line & Hi & Hl & ->).
        -- injection Hi as ->. done.
        -- exists i, line. split_and!; [done|done|]. f_equal. lia.
Qed.

Lemma hits_of_increasing search n lines :
  StronglySorted (λ a b, Search.line_number a < Search.line_number b)
                 (hits_of search (enumerate n lines)).
Proof.
  revert n. induction lines as [|x lines IH]; intros n.
  - constructor.
  - pose proof (elem_of_hits_of search (n + 1) lines) as Hel.
    unfold hits_of in *. cbn [enumerate]. rewrite filter_cons. cbn [snd].
    destruct (decide (search x = true)); [|apply IH].
    rewrite fmap_cons. constructor; [apply IH|].
    apply Forall_forall. intros h Hh. apply Hel in Hh as (i & line & _ & _ & ->).
    cbn [fst Search.line_number]. lia.
Qed.

Lemma search_loop_prefix search max_matches numbered :
  ∃ k, search_loop search max_matches numbered []
       = take k (hits_of search numbered).
Proof.
  destruct (Z.le_gt_cases max_matches 0).
  - exists (length (hits_of search numbered)).
    rewrite search_loop_unlimited by done. by rewrite take_ge.
  - exists (Z.to_nat max_matches).
    rewrite search_loop_capped; [done|lia|]. unfold Py.len. simpl. lia.
Qed.

(** X18. On a readable file and a pattern that compiles, every match of
    [search_in_file] is a line of the file that the pattern matches, under
    its 1-based number and without its newline; the matches come in
    increasing line order; and with [max_matches <= 0] every matching line
    is among them. *)
Theorem search_in_file_hits_are_matching_lines
    (re_compile : string → bool → outcome (string → bool))
    (σ : fs) (p raw pattern : string) (cs : bool) (max_matches : Z)
    (regex : string → bool) :
  σ !! p = Some (File raw) →
  re_compile pattern (negb cs) = Returned regex →
  let lines := Py.iter_lines (Py.universal_newlines raw) in
  ∃ r,
    search_in_file re_compile p pattern cs max_matches σ = (Returned r, σ)
    ∧ (∀ h, h ∈ Search.matches r →
         ∃ line,
           1 ≤ Search.line_number h
           ∧ lines !! Z.to_nat (Search.line_number h - 1) = Some line
           ∧ regex line = true
           ∧ Search.content h = Py.rstrip_nl line)
    ∧ StronglySorted (λ a b, Search.line_number a < Search.line_number b)
                     (Search.matches r)
    ∧ (max_matches ≤ 0 →
       ∀ (i : nat) line,
         lines !! i = Some line → regex line = true →
         Search.Hit (Z.of_nat i + 1) (Py.rstrip_nl line) ∈ Search.matches r).
Proof.
  intros Hp Hre lines.
  rewrite (search_in_file_found _ _ _ _ _ _ _ _ Hp Hre). cbv zeta. fold lines.
  eexists. split; [reflexivity|]. cbn [Search.matches].
  destruct (search_loop_prefix regex max_matches (enumerate 1 lines)) as [k Hk].
  split_and!.
  - intros h Hh. rewrite Hk in Hh. apply elem_of_take in Hh as (j & Hh & _).
    apply list_elem_of_lookup_2 in Hh.
    apply elem_of_hits_of in Hh as (i & line & Hi & Hl & ->).
    exists line. cbn [Search.line_number Search.content].
    split_and!; [lia| |done|done].
    by replace (Z.to_nat (1 + Z.of_nat i - 1)) with i by lia.
  - rewrite Hk.
    pose proof (hits_of_increasing regex 1 lines) as Hsorted.
    rewrite <- (take_drop k (hits_of regex (enumerate 1 lines))) in Hsorted.
    by apply StronglySorted_app_1_l in Hsorted.
  - intros Hmax i line Hi Hl. rewrite search_loop_unlimited by done.
    rewrite app_nil_l. apply elem_of_hits_of. exists i, line.
    split_and!; [done|done|]. f_equal. lia.
Qed.

Lemma search_in_file_hits_are_matching_lines_witness :
  ∃ r,
    search_in_file (λ _ _, Returned contains_e) "f.txt" "e" true 1 greeting
    = (Returned r, greeting)
    ∧ (∀ h, h ∈ Search.matches r →
         ∃ line,
           1 ≤ Search.line_number h
           ∧ Py.iter_lines (Py.universal_newlines "hello world, hello")
               !! Z.to_nat (Search.line_number h - 1) = Some line
           ∧ contains_e line = true
           ∧ Search.content h = Py.rstrip_nl line)
    ∧ StronglySorted (λ a b, Search.line_number a < Search.line_number b)
                     (Search.matches r)
    ∧ (1 ≤ 0 →
       ∀ (i : nat) line,
         Py.iter_lines (Py.universal_newlines "hello world, hello") !! i = Some line →
         contains_e line = true →
         Search.Hit (Z.of_nat i + 1) (Py.rstrip_nl line) ∈ Search.matches r).
Proof.
  apply (search_in_file_hits_are_matching_lines (λ _ _, Returned contains_e)
           greeting "f.txt" "hello world, hello" "e" true 1 contains_e).
  - reflexivity.
  - reflexivity.
Defined.




Lemma universal_newlines_no_cr s : no_cr (Py.universal_newlines s) = true.
Proof.
  induction s as [|c|c d s IH1 IH2] using string_ind2.
  - reflexivity.
  - simpl. destruct (Py.is_cr c) eqn:Hc; simpl; [done|]. by rewrite Hc.
  - rewrite universal_newlines_cons. destruct (Py.is_cr c) eqn:Hc.
    + cbn [no_cr]. change (Py.is_cr Py.LF) with false. cbn [negb andb].
      by destruct (Py.is_lf d).
    + cbn [no_cr]. by rewrite Hc, IH2.
Qed.

Lemma universal_newlines_id s : no_cr s = true → Py.universal_newlines s = s.
Proof.
  induction s as [|c s IH]; [done|]. cbn [no_cr]. intros [Hc Hs]%andb_true_iff.
  apply negb_true_iff in Hc. rewrite universal_newlines_cons, Hc. by rewrite IH.
Qed.

Lemma universal_newlines_idemp s :
  Py.universal_newlines (Py.universal_newlines s) = Py.universal_newlines s.
Proof. apply universal_newlines_id, universal_newlines_no_cr. Qed.

Lemma edit_file_typed_batch (σ : fs) p raw repl (batch : list line_operation) create :
  σ !! p = Some (File raw) →
  batch ≠ [] →
  let content := (apply_replacements repl (Py.universal_newlines raw)).1 in
  let lines := Str <$> Py.splitlines content in
  (edit_file p repl (Some (as_dict <$> batch)) create σ).2
  = <[p := File (Py.join Py.NL
                   (item_text <$> (apply_line_operations lines (as_dict <$> batch)).1))]> σ.
Proof.
  intros Hp Hne content lines.
  assert (Hops : as_dict <$> batch ≠ []) by (by destruct batch).
  rewrite (edit_file_found _ _ _ _ _ _ Hp).
  erewrite edit_existing_ok; [reflexivity|exact Hp|].
  fold content. rewrite apply_line_edits_ok; [reflexivity|done|].
  apply run_ops_all_str; [|apply all_str_splitlines].
  unfold sorted_ops. rewrite sorted_perm.
  apply Forall_fmap, Forall_true. exact as_dict_well_typed.
Qed.

Lemma edit_file_only_replacements (σ : fs) p raw repl create :
  σ !! p = Some (File raw) →
  (edit_file p repl None create σ).2
  = <[p := File (apply_replacements repl (Py.universal_newlines raw)).1]> σ.
Proof.
  intros Hp. rewrite (edit_file_found _ _ _ _ _ _ Hp).
  by erewrite edit_existing_ok; [reflexivity|exact Hp|].
Qed.

(** X11. Replacements and line operations may be split over two calls: a
    call with the replacements followed by a call with a non-empty batch of
    well-typed line operations leaves the file that one call with both
    leaves. *)
Theorem replacements_and_line_operations_in_two_calls
    (σ : fs) (p raw : string) repl (batch : list line_operation)
    (c0 c1 c2 : bool) :
  σ !! p = Some (File raw) →
  batch ≠ [] →
  let ops := Some (as_dict <$> batch) in
  (edit_file p None ops c2 (edit_file p repl None c1 σ).2).2
  = (edit_file p repl ops c0 σ).2.
Proof.
  intros Hp Hne ops. subst ops.
  rewrite (edit_file_only_replacements _ _ _ _ _ Hp).
  rewrite (edit_file_typed_batch _ _ _ _ _ _ Hp Hne).
  rewrite (edit_file_typed_batch _ p
             (apply_replacements repl (Py.universal_newlines raw)).1 None batch c2);
    [|by rewrite lookup_insert_eq|done].
  rewrite insert_insert_eq. cbn [apply_replacements fst].
  by rewrite splitlines_universal_newlines.
Qed.

Lemma replacements_and_line_operations_in_two_calls_witness :
  (edit_file "f.txt" None (Some (as_dict <$> [DeleteAt 1; InsertAt 9 (Str "end")])) false
     (edit_file "f.txt" (Some [("a", String Py.CR "x")]) None false two_lines).2).2
  = (edit_file "f.txt" (Some [("a", String Py.CR "x")])
       (Some (as_dict <$> [DeleteAt 1; InsertAt 9 (Str "end")])) false two_lines).2.
Proof.
  apply (replacements_and_line_operations_in_two_calls two_lines "f.txt"
           ("a" +:+ Py.NL +:+ "b") (Some [("a", String Py.CR "x")])
           [DeleteAt 1; InsertAt 9 (Str "end")] false false false).
  - reflexivity.
  - discriminate.
Defined.

(** X12. The rewrite of an edit with nothing to do is idempotent: a second
    such edit leaves the file as the first one left it. *)
Theorem edit_file_twice_with_nothing_to_do
    (σ : fs) (p raw : string) (c1 c2 : bool) :
  σ !! p = Some (File raw) →
  let once := (edit_file p None None c1 σ).2 in
  (edit_file p None None c2 once).2 = once
  ∧ once !! p = Some (File (Py.universal_newlines raw)).
Proof.
  intros Hp once. subst once.
  rewrite (edit_file_only_replacements _ _ _ _ _ Hp). cbn [apply_replacements fst].
  rewrite (edit_file_only_replacements _ p (Py.universal_newlines raw));
    [|by rewrite lookup_insert_eq].
  cbn [apply_replacements fst].
  rewrite universal_newlines_idemp, insert_insert_eq, lookup_insert_eq. done.
Qed.

(** X13. With one replacement pair whose key is not empty and no line
    operations, the sizes and the count reported agree: [new_size] plus
    count times the key's length is [original_size] plus count times the
    replacement's length (count 0 when the key has no entry). *)
Theorem one_replacement_size_accounting
    (σ : fs) (p raw old new : string) (lops : option (list Op.t)) (create : bool) :
  σ !! p = Some (File raw) →
  old ≠ "" →
  falsy lops →
  ∃ r,
    (edit_file p (Some [(old, new)]) lops create σ).1 = Returned r
    ∧ ∃ original_size new_size,
        Edit.original_size r = Some original_size
        ∧ Edit.new_size r = Some new_size
        ∧ let n := Z.of_nat (default 0%nat (Edit.replacements_made r !! old)) in
          new_size + n * Z.of_nat (String.length old)
          = original_size + n * Z.of_nat (String.length new).
Proof.
  intros Hp Hold Hlops.
  rewrite (edit_file_found _ _ _ _ _ _ Hp).
  erewrite edit_existing_ok; [|exact Hp|by destruct Hlops as [-> | ->]].
  eexists. split; [reflexivity|].
  cbn [Edit.original_size Edit.new_size Edit.replacements_made].
  do 2 eexists. split_and!; [reflexivity|reflexivity|].
  cbn [apply_replacements replace_loop fst snd].
  pose proof (replace_length (Py.universal_newlines raw) old new Hold) as Hlen.
  destruct (Nat.ltb_spec 0 (Py.count (Py.universal_newlines raw) old)) as [Hpos|Hzero].
  - cbn [fst snd]. rewrite lookup_insert_eq. cbv zeta. unfold default. cbn [from_option].
    unfold id. nia.
  - cbn [fst snd]. rewrite lookup_empty. cbv zeta. unfold default. cbn [from_option].
    change (Z.of_nat 0) with 0. by rewrite !Z.mul_0_l.
Qed.

Lemma edit_file_twice_with_nothing_to_do_witness :
  let once := (edit_file "dos.txt" None None false crlf_file).2 in
  (edit_file "dos.txt" None None false once).2 = once
  ∧ once !! "dos.txt" = Some (File ("a" +:+ Py.NL +:+ "b")).
Proof.
  apply (edit_file_twice_with_nothing_to_do crlf_file "dos.txt"
           ("a" +:+ String Py.CR (String Py.LF "b")) false false).
  reflexivity.
Defined.

Lemma one_replacement_size_accounting_witness :
  ∃ r,
    (edit_file "f.txt" (Some [("hello", "bye")]) None false greeting).1 = Returned r
    ∧ ∃ original_size new_size,
        Edit.original_size r = Some original_size
        ∧ Edit.new_size r = Some new_size
        ∧ let n := Z.of_nat (default 0%nat (Edit.replacements_made r !! "hello")) in
          new_size + n * Z.of_nat (String.length "hello")
          = original_size + n * Z.of_nat (String.length "bye").
Proof.
  apply (one_replacement_size_accounting greeting "f.txt" "hello world, hello"
           "hello" "bye" None false).
  - reflexivity.
  - discriminate.
  - by left.
Defined.
